(** * count_labels.py: label matching and count aggregation

    A shallow embedding of [src/count_labels.py] and the properties of its
    matcher, aggregator and writer.

    The script reads two CSV tables with pandas, matches every lower-cased
    name of the summary table against the eleven hierarchy columns
    [level_0] .. [level_10] of every row of the region-counts table, sums the
    [count] of the matching rows per name and writes the summary table back
    with a new [count] column.

    What is modelled, and how:
    - a Python [str] is a list of Unicode code points;
    - a cell of a pandas table is the Python object [iterrows] hands to the
      program: a [str], an [int], a [bool], a [float] or the float [nan] that
      pandas uses for a missing value;
    - a [DataFrame] is its ordered column labels and its rows, a row
      ([Series]) being the ordered association of column labels to cells;
    - exceptions are the [Raise] results of an error monad, and the process
      (standard output, the files on disk, the module-level global
      [summary_structures_filepath]) is a state threaded through [M]. *)

From Stdlib Require Import ZArith NArith String Ascii DecimalString.
From stdpp Require Import base numbers option list gmap.

Open Scope Z_scope.

(** ** Python strings *)

Module PyStr.

(** A [str] is a sequence of code points. *)
Abbreviation pystr := (list N).

(** An ASCII literal of the source as a [str]. *)
Definition lit (s : string) : pystr := N_of_ascii <$> list_ascii_of_string s.

(** [str.lower()] and [str.upper()], character by character.  The case
    tables are those of Unicode for U+0000 .. U+00FF (ASCII and Latin-1),
    together with the two capitals U+0178 and U+039C that [upper] reaches
    from there.  Of these characters only U+00DF (sharp s) changes the length
    of a string: its upper case is the two letters "SS".  Code points outside
    that range are left alone by this model; a statement that depends on
    what the tables hold asks for text in that range ([latin1]). *)
Definition lower_cp (c : N) : N :=
  if (65 <=? c)%N && (c <=? 90)%N then (c + 32)%N
  else if (192 <=? c)%N && (c <=? 222)%N && negb (c =? 215)%N then (c + 32)%N
  else if (c =? 376)%N then 255%N
  else if (c =? 924)%N then 956%N
  else c.

Definition upper_cp (c : N) : list N :=
  if (97 <=? c)%N && (c <=? 122)%N then [(c - 32)%N]
  else if (224 <=? c)%N && (c <=? 254)%N && negb (c =? 247)%N then [(c - 32)%N]
  else if (c =? 223)%N then [83%N; 83%N]
  else if (c =? 255)%N then [376%N]
  else if (c =? 181)%N then [924%N]
  else [c].

Definition lower (s : pystr) : pystr := lower_cp <$> s.
Definition upper (s : pystr) : pystr := s ≫= upper_cp.

Definition is_ascii (s : pystr) : bool := forallb (λ c, (c <? 128)%N) s.

(** The white space [int()] skips around a number: tab to carriage
    return, the space, and the Unicode spaces from U+0085 on.  (The
    separators U+001C .. U+001F are white space for [str.isspace] but not
    for [int()].) *)
Definition is_space (c : N) : bool :=
  ((9 <=? c)%N && (c <=? 13)%N) || (c =? 32)%N
  || (c =? 133)%N || (c =? 160)%N || (c =? 5760)%N
  || ((8192 <=? c)%N && (c <=? 8202)%N) || (c =? 8232)%N || (c =? 8233)%N
  || (c =? 8239)%N || (c =? 8287)%N || (c =? 12288)%N.

(** The decimal digits [int()] reads: in every script the ten digits are
    consecutive code points, listed here by their zero (Unicode 14, the
    table of CPython 3.11). *)
Definition digit_zeros : list N :=
  [48; 1632; 1776; 1984; 2406; 2534; 2662; 2790; 2918; 3046; 3174; 3302;
   3430; 3558; 3664; 3792; 3872; 4160; 4240; 6112; 6160; 6470; 6608; 6784;
   6800; 6992; 7088; 7232; 7248; 42528; 43216; 43264; 43472; 43504; 43600;
   44016; 65296; 66720; 68912; 69734; 69872; 69942; 70096; 70384; 70736;
   70864; 71248; 71360; 71472; 71904; 72016; 72784; 73040; 73120; 92768;
   92864; 93008; 120782; 120792; 120802; 120812; 120822; 123200; 123632;
   125264; 130032]%N.

Fixpoint digit_in (zeros : list N) (c : N) : option Z :=
  match zeros with
  | z :: zeros' =>
      if (z <=? c)%N && (c <=? z + 9)%N then Some (Z.of_N (c - z))
      else digit_in zeros' c
  | [] => None
  end.

Definition digit_value (c : N) : option Z := digit_in digit_zeros c.

Fixpoint lstrip (s : pystr) : pystr :=
  match s with
  | c :: s' => if is_space c then lstrip s' else s
  | [] => []
  end.

Definition strip (s : pystr) : pystr := reverse (lstrip (reverse (lstrip s))).

(** The decimal rendering of an integer, [str(n)]. *)
Definition of_Z (z : Z) : pystr := lit (NilZero.string_of_int (Z.to_int z)).

End PyStr.
Export PyStr.

(** ** Exceptions and the error monad *)

Inductive exn :=
| AttributeError
| ValueError
| OverflowError
| IndexError
| KeyError (key : pystr)
| NameError (name : pystr)
| FileNotFoundError (path : pystr)
| OSError (path : pystr)
| SystemExit (code : option Z).

Inductive result (A : Type) :=
| Ok (a : A)
| Raise (e : exn).
Arguments Ok {A} a.
Arguments Raise {A} e.

#[export] Instance result_ret : MRet result := λ A a, Ok a.
#[export] Instance result_bind : MBind result := λ A B f m,
  match m with
  | Ok a => f a
  | Raise e => Raise e
  end.

(** A [for] loop that updates an accumulator and stops at the first
    exception. *)
Fixpoint foldM {A B} (f : A → B → result A) (a : A) (l : list B) : result A :=
  match l with
  | [] => Ok a
  | b :: l' => a' ← f a b; foldM f a' l'
  end.

Definition is_ok {A} (r : result A) : bool :=
  match r with Ok _ => true | Raise _ => false end.

(** ** Python objects in table cells *)

(** A finite float is observed by the script through [str()] and [int()]
    only, so a float cell records exactly these two observations:
    its rendering, and its truncation ([None] for an infinity, on which
    [int()] raises OverflowError).  The float [nan] is a cell of its own. *)
Record pyfloat := { float_str : pystr; float_int : option Z }.

(** The float [0.0]. *)
Definition float_zero : pyfloat :=
  {| float_str := lit "0.0"; float_int := Some 0 |}.

Inductive pyobj :=
| PStr (s : pystr)
| PInt (z : Z)
| PBool (b : bool)
| PFloat (f : pyfloat)
| PNaN.

(** [str(x)] *)
Definition py_str (x : pyobj) : pystr :=
  match x with
  | PStr s => s
  | PInt z => of_Z z
  | PBool true => lit "True"
  | PBool false => lit "False"
  | PFloat f => float_str f
  | PNaN => lit "nan"
  end.

(** [x.lower()]: only a [str] has the method. *)
Definition py_lower (x : pyobj) : result pystr :=
  match x with
  | PStr s => Ok (lower s)
  | _ => Raise AttributeError
  end.

(** [x == x], false for [nan] alone. *)
Definition py_eq_self (x : pyobj) : bool :=
  match x with PNaN => false | _ => true end.

(** [int(s)] for a [str]: optional surrounding white space, an optional
    sign, then decimal digits, single underscores allowed between digits;
    more than 4300 digits are refused (CPython's default limit). *)
Fixpoint int_digits (acc : Z) (after_digit : bool) (s : pystr) : option Z :=
  match s with
  | [] => if after_digit then Some acc else None
  | c :: s' =>
      if (c =? 95)%N then
        if after_digit then int_digits acc false s' else None
      else match digit_value c with
           | Some d => int_digits (10 * acc + d) true s'
           | None => None
           end
  end.

Definition digit_count (s : pystr) : nat :=
  length (filter (λ c, is_Some (digit_value c)) s).

Definition int_of_str (s : pystr) : option Z :=
  if bool_decide (digit_count s ≤ 4300)%nat then
    match strip s with
    | c :: s' =>
        if (c =? 45)%N then Z.opp <$> int_digits 0 false s'
        else if (c =? 43)%N then int_digits 0 false s'
        else int_digits 0 false (c :: s')
    | [] => None
    end
  else None.

(** [int(x)] *)
Definition py_int (x : pyobj) : result Z :=
  match x with
  | PStr s => match int_of_str s with Some z => Ok z | None => Raise ValueError end
  | PInt z => Ok z
  | PBool b => Ok (if b then 1 else 0)
  | PFloat f => match float_int f with Some z => Ok z | None => Raise OverflowError end
  | PNaN => Raise ValueError
  end.

(** ** pandas tables *)

(** A row ([Series]) associates column labels with cells, in column order. *)
Definition series := list (pystr * pyobj).

Record DataFrame := { columns : list pystr; rows : list series }.

Fixpoint assoc (key : pystr) (row : series) : option pyobj :=
  match row with
  | [] => None
  | (k, v) :: row' => if decide (k = key) then Some v else assoc key row'
  end.

(** [row[key]] *)
Definition getitem (row : series) (key : pystr) : result pyobj :=
  match assoc key row with
  | Some v => Ok v
  | None => Raise (KeyError key)
  end.

(** [row[key] = v]: replaces the cell in place, or appends a new label. *)
Fixpoint setitem (key : pystr) (v : pyobj) (row : series) : series :=
  match row with
  | [] => [(key, v)]
  | (k, w) :: row' =>
      if decide (k = key) then (k, v) :: row' else (k, w) :: setitem key v row'
  end.

(** [df[key]]: the cells of a column, top to bottom. *)
Definition getcol (df : DataFrame) (key : pystr) : result (list pyobj) :=
  if decide (key ∈ columns df) then mapM (λ row, getitem row key) (rows df)
  else Raise (KeyError key).

(** [df[key] = values] *)
Definition setcol (df : DataFrame) (key : pystr) (values : list pyobj)
  : result DataFrame :=
  if decide (length values = length (rows df)) then
    Ok {| columns := if decide (key ∈ columns df) then columns df
                     else columns df ++ [key];
          rows := zip_with (setitem key) values (rows df) |}
  else Raise ValueError.

(** [df.fillna(0)].  pandas fills column by column and keeps the column's
    dtype: in a float64 column (every cell a float or missing, which is
    what [read_csv] gives an empty or a numeric column with gaps) a missing
    cell becomes the float [0.0]; in an object column (one that holds
    strings) it becomes the int [0]. *)
Definition is_floaty (v : pyobj) : bool :=
  match v with PFloat _ | PNaN => true | _ => false end.

Definition float_column (df : DataFrame) (key : pystr) : bool :=
  forallb (λ row, match assoc key row with
                  | Some v => is_floaty v
                  | None => true
                  end) (rows df).

Definition fill_value (float_col : bool) (v : pyobj) : pyobj :=
  match v with
  | PNaN => if float_col then PFloat float_zero else PInt 0
  | _ => v
  end.

Definition fill_row (df : DataFrame) (row : series) : series :=
  (λ kv, (kv.1, fill_value (float_column df kv.1) kv.2)) <$> row.

Definition fillna (df : DataFrame) : DataFrame :=
  {| columns := columns df; rows := fill_row df <$> rows df |}.

(** A table with text in it: some cell is a string, so the column of that
    cell has dtype object. *)
Definition text_table (df : DataFrame) : Prop :=
  ∃ row c s, row ∈ rows df ∧ assoc c row = Some (PStr s).

(** [df.iterrows()]: the rows in order, for a [text_table].  pandas builds
    each row in the common dtype of the columns; with an object column that
    dtype is object and each cell reaches the program as the object of its
    own column.  (In a table of numbers only the common dtype is float64 and
    an int cell arrives as a float; the statements about what a run
    writes and about what a cell is compared as ask for a [text_table].) *)
Definition iterrows (df : DataFrame) : list series := rows df.

(** ** The matcher *)

(** The eleven hierarchy columns read by [check_columns]. *)
Definition hierarchy : list pystr :=
  [lit "level_0"; lit "level_1"; lit "level_2"; lit "level_3"; lit "level_4";
   lit "level_5"; lit "level_6"; lit "level_7"; lit "level_8"; lit "level_9";
   lit "level_10"].

(** [check_columns(keyword, row)], lines 45-58. *)
Definition check_columns (keyword : pystr) (row : series) : result bool :=
  let keyword := lower keyword in
  v0 ← getitem row (lit "level_0");
  v1 ← getitem row (lit "level_1");
  v2 ← getitem row (lit "level_2");
  v3 ← getitem row (lit "level_3");
  v4 ← getitem row (lit "level_4");
  v5 ← getitem row (lit "level_5");
  v6 ← getitem row (lit "level_6");
  v7 ← getitem row (lit "level_7");
  v8 ← getitem row (lit "level_8");
  v9 ← getitem row (lit "level_9");
  v10 ← getitem row (lit "level_10");
  let row_labels :=
    [lower (py_str v0); lower (py_str v1); lower (py_str v2);
     lower (py_str v3); lower (py_str v4); lower (py_str v5);
     lower (py_str v6); lower (py_str v7); lower (py_str v8);
     lower (py_str v9); lower (py_str v10)] in
  if bool_decide (keyword ∈ row_labels) then mret true else mret false.

(** ** The process: standard output, files and the module global *)

(** [files] maps a path to the table [pd.read_csv] parses from the file
    there; [summary_structures_filepath] is the module-level variable of
    that name, unbound until the script assigns it; [writable] tells of a
    path whether a file can be written there (its directory exists and the
    process may write in it).  A path stands for the file it names: two
    spellings of one file are not told apart from two files, so the
    statements speak of what is read and written at a path. *)
Record state := {
  stdout : list pystr;
  files : gmap pystr DataFrame;
  summary_structures_filepath : option pystr;
  writable : pystr → bool
}.

Definition M (A : Type) : Type := state → result A * state.

#[export] Instance M_ret : MRet M := λ A a σ, (Ok a, σ).
#[export] Instance M_bind : MBind M := λ A B f m σ,
  match m σ with
  | (Ok a, σ') => f a σ'
  | (Raise e, σ') => (Raise e, σ')
  end.

(** A computation that only returns or raises. *)
Definition liftR {A} (r : result A) : M A := λ σ, (r, σ).

(** [print(s)] *)
Definition print (s : pystr) : M unit :=
  λ σ, (Ok (), {| stdout := stdout σ ++ [s]; files := files σ;
                  summary_structures_filepath := summary_structures_filepath σ;
                  writable := writable σ |}).

(** [sys.exit()] raises SystemExit with no code. *)
Definition sys_exit : M unit := liftR (Raise (SystemExit None)).

(** [pd.read_csv(path)] *)
Definition read_csv (path : pystr) : M DataFrame :=
  λ σ, match files σ !! path with
       | Some df => (Ok df, σ)
       | None => (Raise (FileNotFoundError path), σ)
       end.

(** [df.to_csv(path, index=False)]: the file at [path] is replaced; where
    nothing can be written (a directory that does not exist, a path that
    may not be written) pandas raises OSError and no file changes. *)
Definition to_csv (df : DataFrame) (path : pystr) : M unit :=
  λ σ, if writable σ path then
         (Ok (), {| stdout := stdout σ; files := <[path := df]> (files σ);
                    summary_structures_filepath := summary_structures_filepath σ;
                    writable := writable σ |})
       else (Raise (OSError path), σ).

(** Reading and assigning the global [summary_structures_filepath]. *)
Definition get_summary_structures_filepath : M pystr :=
  λ σ, match summary_structures_filepath σ with
       | Some p => (Ok p, σ)
       | None => (Raise (NameError (lit "summary_structures_filepath")), σ)
       end.

Definition set_summary_structures_filepath (p : pystr) : M unit :=
  λ σ, (Ok (), {| stdout := stdout σ; files := files σ;
                  summary_structures_filepath := Some p;
                  writable := writable σ |}).

(** The exit status the interpreter reports: 0 after a normal end and after
    SystemExit without a code, the code of a SystemExit that has one, and 1
    after any other uncaught exception. *)
Definition exit_status {A} (r : result A) : Z :=
  match r with
  | Ok _ => 0
  | Raise (SystemExit None) => 0
  | Raise (SystemExit (Some n)) => n
  | Raise _ => 1
  end.

(** Whether the run ended in an uncaught exception other than SystemExit
    (a traceback). *)
Definition unhandled_fault {A} (r : result A) : bool :=
  match r with
  | Ok _ => false
  | Raise (SystemExit _) => false
  | Raise _ => true
  end.

(** [os.path.dirname(p)] of posixpath. *)
Definition sep : N := 47%N.

Fixpoint from_sep (s : pystr) : pystr :=
  match s with
  | c :: s' => if (c =? sep)%N then s else from_sep s'
  | [] => []
  end.

Fixpoint lstrip_sep (s : pystr) : pystr :=
  match s with
  | c :: s' => if (c =? sep)%N then lstrip_sep s' else s
  | [] => []
  end.

Definition dirname (p : pystr) : pystr :=
  let head := reverse (from_sep (reverse p)) in
  if forallb (λ c, (c =? sep)%N) head then head
  else reverse (lstrip_sep (reverse head)).

(** ** The loaders *)

(** [load_summary_structures(filepath)], lines 10-17.  Line 15 reads the
    module global [summary_structures_filepath], not the parameter. *)
Definition load_summary_structures (filepath : pystr)
  : M (DataFrame * gset pystr) :=
  path ← get_summary_structures_filepath;
  summary_structures ← read_csv path;
  names ← liftR (getcol summary_structures (lit "name"));
  lowered ← liftR (mapM py_lower names);
  mret (summary_structures, list_to_set lowered).

(** [load_region_counts(filepath)], lines 20-42.  The sets of cells are kept
    as lists: only their members matter to what follows. *)
Definition load_region_counts (filepath : pystr)
  : M (DataFrame * gset pystr) :=
  region_counts ← read_csv filepath;
  liftR (
    level_1 ← getcol region_counts (lit "level_1");
    level_2 ← getcol region_counts (lit "level_2");
    level_3 ← getcol region_counts (lit "level_3");
    level_4 ← getcol region_counts (lit "level_4");
    level_5 ← getcol region_counts (lit "level_5");
    level_6 ← getcol region_counts (lit "level_6");
    level_7 ← getcol region_counts (lit "level_7");
    level_8 ← getcol region_counts (lit "level_8");
    level_9 ← getcol region_counts (lit "level_9");
    level_10 ← getcol region_counts (lit "level_10");
    region_name ← getcol region_counts (lit "region name");
    let levels := level_1 ++ level_2 ++ level_3 ++ level_4 ++ level_5 ++
                  level_6 ++ level_7 ++ level_8 ++ level_9 ++ level_10 ++
                  region_name in
    lowered ← mapM py_lower (filter (λ x, py_eq_self x = true) levels);
    mret (region_counts, list_to_set lowered)).

(** ** The aggregator, lines 82-89 *)

(** The body of the inner loop: one label against one row.
    [structure_count] is a [defaultdict(int)], so [+=] on an absent key
    starts from 0. *)
Definition add_row (label : pystr) (structure_count : gmap pystr Z)
    (row : series) : result (gmap pystr Z) :=
  is_match ← check_columns label row;
  if (is_match : bool) then
    c ← getitem row (lit "count");
    n ← py_int c;
    mret (<[label := default 0 (structure_count !! label) + n]> structure_count)
  else mret structure_count.

(** The two nested loops.  The labels are a Python set; they are visited in
    the order [elements] lists them, each one once. *)
Definition aggregate (structures : gset pystr) (region_counts : DataFrame)
  : result (gmap pystr Z) :=
  foldM (λ structure_count label,
           foldM (add_row label) structure_count (iterrows region_counts))
        ∅ (elements structures).

(** ** The writer, lines 92-94 *)

Definition summary_count (structure_count : gmap pystr Z) (name : pystr) : Z :=
  match structure_count !! name with
  | Some c => c
  | None => 0
  end.

Definition add_counts (summary_structures : DataFrame)
    (structure_count : gmap pystr Z) : result DataFrame :=
  names ← getcol summary_structures (lit "name");
  summary_names ← mapM py_lower names;
  let summary_counts := summary_count structure_count <$> summary_names in
  setcol summary_structures (lit "count") (PInt <$> summary_counts).

(** ** The script, lines 61-95 *)

Definition index (argv : list pystr) (i : nat) : result pystr :=
  match argv !! i with
  | Some a => Ok a
  | None => Raise IndexError
  end.

Definition main (argv : list pystr) : M unit :=
  if bool_decide (length argv < 3)%nat then
    _ ← print (lit "Please specify input parameters. Example shown below:");
    _ ← print (lit "python count_labels.py SUMMARY_STRUCTURES_PATH REGION_COUNTS_PATH OUTPUT_PATH");
    sys_exit
  else
    path ← liftR (index argv 1);
    _ ← set_summary_structures_filepath path;
    region_counts_filepath ← liftR (index argv 2);
    output_path ←
      (if bool_decide (4 ≤ length argv)%nat then liftR (index argv 3)
       else mret (dirname region_counts_filepath
                  ++ lit "/summary_structures_counts.csv"));
    _ ← print (lit "Summary structures filepath: " ++ path);
    _ ← print (lit "Region counts filepath: " ++ region_counts_filepath);
    _ ← print (lit "Output csv filepath: " ++ output_path);
    '(summary_structures, structures) ← load_summary_structures path;
    '(region_counts, _) ← load_region_counts region_counts_filepath;
    let region_counts := fillna region_counts in
    structure_count ← liftR (aggregate structures region_counts);
    summary_structures ← liftR (add_counts summary_structures structure_count);
    to_csv summary_structures output_path.

(** ** Vocabulary of the statements *)

(** The cell of a row under a column label ([nan] stands in where the label
    is absent; the statements below ask for the label to be present). *)
Definition cell (row : series) (key : pystr) : pyobj :=
  default PNaN (assoc key row).

Definition has_columns (keys : list pystr) (row : series) : bool :=
  forallb (λ k, bool_decide (is_Some (assoc k row))) keys.

(** The eleven lower-cased renderings a row is compared with. *)
Definition row_labels (row : series) : list pystr :=
  (λ c, lower (py_str (cell row c))) <$> hierarchy.

Definition matches (label : pystr) (row : series) : bool :=
  bool_decide (lower label ∈ row_labels row).

(** In how many of the eleven columns the label is found. *)
Definition hits (label : pystr) (row : series) : nat :=
  length (filter (λ l, l = lower label) (row_labels row)).

(** [int(row['count'])], 0 where it raises. *)
Definition row_count (row : series) : Z :=
  match getitem row (lit "count") ≫= py_int with
  | Ok n => n
  | Raise _ => 0
  end.

(** A row the loops of the script run through without an exception. *)
Definition row_ok (row : series) : bool :=
  has_columns hierarchy row && is_ok (getitem row (lit "count") ≫= py_int).

(** A row of the table as read whose [count] is missing or converts. *)
Definition raw_row_ok (row : series) : bool :=
  has_columns hierarchy row &&
  match assoc (lit "count") row with
  | Some PNaN => true
  | Some v => is_ok (py_int v)
  | None => false
  end.

Fixpoint Zsum {A} (f : A → Z) (l : list A) : Z :=
  match l with
  | [] => 0
  | a :: l' => f a + Zsum f l'
  end.

(** The sum of the counts of the rows a label matches. *)
Definition total (label : pystr) (rs : list series) : Z :=
  Zsum (λ row, if matches label row then row_count row else 0) rs.

(** A row with one cell lower-cased. *)
Definition cell_lower (v : pyobj) : pyobj :=
  match v with
  | PStr s => PStr (lower s)
  | _ => v
  end.

Definition lower_field (key : pystr) (row : series) : series :=
  (λ kv, if decide (kv.1 = key) then (kv.1, cell_lower kv.2) else kv) <$> row.

(** Tables that agree everywhere but in one column. *)
Definition agree_off (key : pystr) (df df' : DataFrame) : Prop :=
  columns df = columns df' ∧
  Forall2 (λ row row', ∀ k, k ≠ key → assoc k row = assoc k row')
          (rows df) (rows df').

(** Example tables. *)
Definition region_columns : list pystr :=
  hierarchy ++ [lit "region name"; lit "count"].

Definition region_row (cells : list pyobj) : series := zip region_columns cells.

Definition summary_table (names : list pyobj) : DataFrame :=
  {| columns := [lit "name"]; rows := (λ n, [(lit "name", n)]) <$> names |}.

Definition disk (l : list (pystr * DataFrame)) : state :=
  {| stdout := []; files := list_to_map l; summary_structures_filepath := None;
     writable := λ _, true |}.

(** One of the eleven entries of [row_labels] in [check_columns]. *)
Definition field_label (row : series) (c : pystr) : result pystr :=
  v ← getitem row c; mret (lower (py_str v)).

(** A row whose only name is "cerebral cortex", at [level_3]. *)
Definition cerebral_row : series :=
  region_row [PNaN; PNaN; PNaN; PStr (lit "cerebral cortex"); PNaN; PNaN;
              PNaN; PNaN; PNaN; PNaN; PNaN; PStr (lit "cerebral cortex");
              PInt 3].

(** A row that names the thalamus in capitals at [level_3]. *)
Definition capitals_row : series :=
  region_row [PNaN; PNaN; PNaN; PStr (lit "THALAMUS"); PNaN; PNaN;
              PNaN; PNaN; PNaN; PNaN; PNaN; PStr (lit "Thalamus");
              PInt 6].

(** Text of characters up to U+00FF, the range on which the case tables
    above are those of Python. *)
Definition latin1 (s : pystr) : Prop := Forall (λ ch, (ch < 256)%N) s.

(** The one-letter label U+00DF (sharp s) and a row that carries it. *)
Definition sharp_s : pystr := [223%N].

Definition sharp_row : series :=
  region_row [PNaN; PNaN; PNaN; PStr sharp_s; PNaN; PNaN; PNaN; PNaN; PNaN;
              PNaN; PNaN; PStr sharp_s; PInt 1].

(** A table as [read_csv] returns it: [level_0] is a column of integers,
    [level_1] and [region name] hold text, [level_2] .. [level_10] are empty
    and so float64 columns of [nan]. *)
Definition gap_row : series :=
  region_row [PInt 7; PStr (lit "Thalamus"); PNaN; PNaN; PNaN; PNaN; PNaN;
              PNaN; PNaN; PNaN; PNaN; PStr (lit "thalamus"); PInt 10].

Definition gap_table : DataFrame :=
  {| columns := region_columns; rows := [gap_row] |}.

(** A table whose [level_2] holds text in one row and is missing in the
    other, and whose [count], missing in one row, is a float64 column. *)
Definition mixed_table : DataFrame :=
  {| columns := region_columns;
     rows := [region_row [PNaN; PStr (lit "root"); PStr (lit "Cortex"); PNaN;
                          PNaN; PNaN; PNaN; PNaN; PNaN; PNaN; PNaN;
                          PStr (lit "cortex");
                          PFloat {| float_str := lit "2.0";
                                    float_int := Some 2 |}];
              region_row [PNaN; PStr (lit "root"); PNaN; PNaN; PNaN; PNaN;
                          PNaN; PNaN; PNaN; PNaN; PNaN; PStr (lit "root");
                          PNaN]] |}.

(** The name of a row of the summary table. *)
Definition name_of (row : series) : pystr :=
  match cell row (lit "name") with
  | PStr s => s
  | _ => []
  end.

(** A row that names "thalamus" in two of its hierarchy columns. *)
Definition twice_table : DataFrame :=
  {| columns := region_columns;
     rows := [region_row [PStr (lit "root"); PStr (lit "Thalamus");
                          PStr (lit "thalamus"); PInt 0; PInt 0; PInt 0;
                          PInt 0; PInt 0; PInt 0; PInt 0; PInt 0;
                          PStr (lit "thalamus"); PInt 5]] |}.

(** The end-to-end scenario: the summary table names Thalamus and Cortex;
    the region-counts table has the row {level_1: "Thalamus", count: 10} and
    the row {level_2: "cortex", level_5: "Thalamus", count: 4}, every other
    cell missing. *)
Definition scenario_summary : DataFrame :=
  summary_table [PStr (lit "Thalamus"); PStr (lit "Cortex")].

Definition scenario_regions : DataFrame :=
  {| columns := region_columns;
     rows := [region_row [PNaN; PStr (lit "Thalamus"); PNaN; PNaN; PNaN; PNaN;
                          PNaN; PNaN; PNaN; PNaN; PNaN; PNaN; PInt 10];
              region_row [PNaN; PNaN; PStr (lit "cortex"); PNaN; PNaN;
                          PStr (lit "Thalamus"); PNaN; PNaN; PNaN; PNaN; PNaN;
                          PNaN; PInt 4]] |}.

Definition scenario : state :=
  disk [(lit "in/summary.csv", scenario_summary);
        (lit "in/region_counts.csv", scenario_regions)].

Definition scenario_argv : list pystr :=
  [lit "count_labels.py"; lit "in/summary.csv"; lit "in/region_counts.csv"].

Definition scenario_output : DataFrame :=
  {| columns := [lit "name"; lit "count"];
     rows := [[(lit "name", PStr (lit "Thalamus")); (lit "count", PInt 14)];
              [(lit "name", PStr (lit "Cortex")); (lit "count", PInt 4)]] |}.

(** Two summary files, with the module global naming the first. *)
Definition two_files : state :=
  {| stdout := [];
     files := list_to_map
                [(lit "a.csv", summary_table [PStr (lit "Thalamus")]);
                 (lit "b.csv", summary_table [PStr (lit "Cortex")])];
     summary_structures_filepath := Some (lit "a.csv");
     writable := λ _, true |}.

(** A summary file with a blank name in its second row. *)
Definition blank_name : state :=
  {| stdout := [];
     files := list_to_map
                [(lit "summary.csv",
                  summary_table [PStr (lit "Thalamus"); PNaN])];
     summary_structures_filepath := Some (lit "summary.csv");
     writable := λ _, true |}.

(** The two lines printed when arguments are missing. *)
Definition usage_lines : list pystr :=
  [lit "Please specify input parameters. Example shown below:";
   lit "python count_labels.py SUMMARY_STRUCTURES_PATH REGION_COUNTS_PATH OUTPUT_PATH"].

(** Two region-counts tables that differ in their [count] cells only: one
    holds the text "abc" where the other holds 3. *)
Definition malformed_counts : DataFrame :=
  {| columns := region_columns;
     rows := [region_row [PStr (lit "root"); PStr (lit "Thalamus");
                          PStr (lit "x"); PStr (lit "x"); PStr (lit "x");
                          PStr (lit "x"); PStr (lit "x"); PStr (lit "x");
                          PStr (lit "x"); PStr (lit "x"); PStr (lit "x");
                          PStr (lit "thalamus"); PStr (lit "abc")]] |}.

Definition malformed_counts_disk : state :=
  disk [(lit "summary.csv", summary_table [PStr (lit "Thalamus")]);
        (lit "region_counts.csv", malformed_counts)].

(** ** gui_ng.py: the two computations that do not go through Qt *)

(** [s.rstrip(c)] for a one-character [c]. *)
Fixpoint lstrip_char (c : N) (s : pystr) : pystr :=
  match s with
  | d :: s' => if (d =? c)%N then lstrip_char c s' else s
  | [] => []
  end.

Definition rstrip_char (c : N) (s : pystr) : pystr :=
  reverse (lstrip_char c (reverse s)).

(** [CustomDoubleSpinBox.textFromValue], lines 42-46, as a function of the
    text [super().textFromValue(value)] returns: when the text has a ".",
    its trailing "0"s and then its trailing "."s are removed. *)
Definition textFromValue (text : pystr) : pystr :=
  if bool_decide (46%N ∈ text) then rstrip_char 46 (rstrip_char 48 text)
  else text.

(** Line 645 of [_visualize],
    [curr_matrix[:3, :3] = curr_matrix[:3, :3][:, ::-1][::-1, :]],
    on a two-dimensional array given by its rows.  numpy assigns from an
    overlapping view as from a copy. *)
Definition block {A} (m : list (list A)) : list (list A) :=
  take 3 <$> take 3 m.

Definition flip_columns {A} (b : list (list A)) : list (list A) :=
  reverse <$> b.

Definition flip_rows {A} (b : list (list A)) : list (list A) := reverse b.

Definition set_block {A} (b m : list (list A)) : list (list A) :=
  zip_with (λ brow row, brow ++ drop 3 row) b (take 3 m) ++ drop 3 m.

Definition flip_matrix {A} (m : list (list A)) : list (list A) :=
  set_block (flip_rows (flip_columns (block m))) m.

(** The entry of a matrix at a row and a column. *)
Definition entry {A} (m : list (list A)) (i j : nat) : option A :=
  m !! i ≫= λ row, row !! j.

(** ** Vocabulary for the whole run *)

(** The columns [load_region_counts] reads. *)
Definition loader_columns : list pystr :=
  [lit "level_1"; lit "level_2"; lit "level_3"; lit "level_4"; lit "level_5";
   lit "level_6"; lit "level_7"; lit "level_8"; lit "level_9"; lit "level_10";
   lit "region name"].

(** The strings among some cells. *)
Definition strs (l : list pyobj) : list pystr :=
  omap (λ v, match v with PStr s => Some s | _ => None end) l.

Definition str_or_nan (v : pyobj) : bool :=
  match v with PStr _ | PNaN => true | _ => false end.

(** The cells of a table under the loader's columns, column after column. *)
Definition loader_cells (df : DataFrame) : list pyobj :=
  loader_columns ≫= λ c, (λ row, cell row c) <$> rows df.

(** A summary table the script accepts. *)
Definition summary_ok (df : DataFrame) : Prop :=
  lit "name" ∈ columns df ∧
  Forall (λ row, ∃ s, assoc (lit "name") row = Some (PStr s)) (rows df).

(** A region-counts table the script accepts: the loader's columns are
    there and hold names or nothing, every row has the hierarchy columns,
    and every count is missing or converts. *)
Definition region_ok (df : DataFrame) : Prop :=
  Forall (λ c, c ∈ columns df) loader_columns ∧
  Forall (λ row, raw_row_ok row = true ∧
                 Forall (λ c, ∃ v, assoc c row = Some v ∧ str_or_nan v = true)
                        loader_columns) (rows df).

(** Where the result is written when no third argument is given. *)
Definition default_output (region_counts_filepath : pystr) : pystr :=
  dirname region_counts_filepath ++ lit "/summary_structures_counts.csv".

(** The three lines printed before the tables are read. *)
Definition info_lines (summary_path region_path output_path : pystr)
  : list pystr :=
  [lit "Summary structures filepath: " ++ summary_path;
   lit "Region counts filepath: " ++ region_path;
   lit "Output csv filepath: " ++ output_path].

(** The summary table with, for every row, the total of its name over the
    filled region-counts table. *)
Definition counted (summary regions : DataFrame) : DataFrame :=
  {| columns := if decide (lit "count" ∈ columns summary) then columns summary
                else columns summary ++ [lit "count"];
     rows := (λ row, setitem (lit "count")
                       (PInt (total (name_of row) (rows (fillna regions)))) row)
             <$> rows summary |}.

(** The effect of a computation on the files. *)
Definition keeps_files {A} (m : M A) : Prop :=
  ∀ σ, files (m σ).2 = files σ.

Definition writes_last {A} (m : M A) : Prop :=
  ∀ σ, match (m σ).1 with
       | Ok _ => ∃ path df, files (m σ).2 = <[path := df]> (files σ)
       | Raise _ => files (m σ).2 = files σ
       end.

(** A row whose matched counts convert, for the labels of a set. *)
Definition needed_counts_ok (structures : gset pystr) (row : series) : Prop :=
  ∀ label, label ∈ structures → matches label row = true →
           is_ok (getitem row (lit "count") ≫= py_int) = true.

(** A region-counts table without the column [level_0]. *)
Definition no_level_0 : DataFrame :=
  {| columns := loader_columns ++ [lit "count"];
     rows := [zip (loader_columns ++ [lit "count"])
                  [PStr (lit "Thalamus"); PNaN; PNaN; PNaN; PNaN; PNaN; PNaN;
                   PNaN; PNaN; PNaN; PStr (lit "thalamus"); PInt 10]] |}.

(** The hierarchy columns after [level_0]. *)
Definition hierarchy_tail : list pystr :=
  [lit "level_1"; lit "level_2"; lit "level_3"; lit "level_4"; lit "level_5";
   lit "level_6"; lit "level_7"; lit "level_8"; lit "level_9"; lit "level_10"].

(** The third argument when there is one, the default otherwise. *)
Definition output_of (region_counts_filepath : pystr) (rest : list pystr)
  : pystr :=
  default (default_output region_counts_filepath) (head rest).

(** ** Proof automation *)

(** Case analysis on the tests of a character table, down to linear
    arithmetic. *)
Ltac split_tests :=
  repeat match goal with
         | |- context [if ?b then _ else _] => destruct b eqn:?
         end;
  repeat match goal with
         | H : _ && _ = true |- _ => apply andb_prop in H as [? ?]
         | H : _ && _ = false |- _ => apply andb_false_iff in H as [?|?]
         | H : negb _ = true |- _ => apply negb_true_iff in H
         | H : negb _ = false |- _ => apply negb_false_iff in H
         end;
  repeat match goal with
         | H : (_ <=? _)%N = true |- _ => apply N.leb_le in H
         | H : (_ <=? _)%N = false |- _ => apply N.leb_gt in H
         | H : (_ <? _)%N = true |- _ => apply N.ltb_lt in H
         | H : (_ <? _)%N = false |- _ => apply N.ltb_ge in H
         | H : (_ =? _)%N = true |- _ => apply N.eqb_eq in H
         | H : (_ =? _)%N = false |- _ => apply N.eqb_neq in H
         end.

(** * Properties *)

(** ** Case mapping *)

Lemma lower_cp_idemp (c : N) : lower_cp (lower_cp c) = lower_cp c.
Proof. unfold lower_cp. split_tests; try reflexivity; lia. Qed.

Lemma lower_idemp (s : pystr) : lower (lower s) = lower s.
Proof.
  unfold lower. induction s as [|c s IH]; [done|].
  rewrite !fmap_cons. f_equal; [apply lower_cp_idemp | apply IH].
Qed.

Lemma lower_app (s t : pystr) : lower (s ++ t) = lower s ++ lower t.
Proof. apply fmap_app. Qed.

Lemma ascii_upper_cp (c : N) :
  (c <? 128)%N = true → lower (upper_cp c) = [lower_cp c].
Proof.
  intros Hc. unfold upper_cp, lower_cp. split_tests; try (exfalso; lia);
    cbn [lower fmap list_fmap]; f_equal; unfold lower_cp;
    split_tests; try reflexivity; lia.
Qed.

(** On ASCII text, upper-casing and then lower-casing is lower-casing. *)
Lemma ascii_upper_lower (s : pystr) :
  is_ascii s = true → lower (upper s) = lower s.
Proof.
  induction s as [|c s IH]; [done|].
  intros [Hc Hs]%andb_prop.
  change (upper (c :: s)) with (upper_cp c ++ upper s).
  rewrite lower_app, (ascii_upper_cp c Hc), (IH Hs). reflexivity.
Qed.

(** ** Rows and the matcher *)

Lemma has_columns_elem keys row k :
  has_columns keys row = true → k ∈ keys → is_Some (assoc k row).
Proof.
  unfold has_columns. rewrite forallb_forall. intros H Hk.
  apply list_elem_of_In in Hk. apply H in Hk. by apply bool_decide_eq_true in Hk.
Qed.

Lemma getitem_cell row k :
  is_Some (assoc k row) → getitem row k = Ok (cell row k).
Proof. intros [v Hv]. unfold getitem, cell. by rewrite Hv. Qed.

Lemma getitem_Ok row k v : getitem row k = Ok v ↔ assoc k row = Some v.
Proof.
  unfold getitem. destruct (assoc k row); split; intros; simplify_eq; done.
Qed.

(** [check_columns] builds its eleven labels left to right and then tests
    membership. *)
Lemma check_columns_unfold keyword row :
  check_columns keyword row =
  (labels ← mapM (field_label row) hierarchy;
   mret (bool_decide (lower keyword ∈ labels))).
Proof.
  unfold check_columns, hierarchy, field_label. cbn [mapM].
  unfold mbind, mret, result_bind, result_ret.
  repeat match goal with
         | |- context [getitem ?r ?k] => destruct (getitem r k); [|reflexivity]
         end.
  by case_bool_decide.
Qed.

Lemma field_labels_ok row keys :
  has_columns keys row = true →
  mapM (field_label row) keys = Ok ((λ c, lower (py_str (cell row c))) <$> keys).
Proof.
  induction keys as [|k keys IH]; [done|].
  intros [Hk Hks]%andb_prop. apply bool_decide_eq_true in Hk.
  change (mapM (field_label row) (k :: keys))
    with (y ← field_label row k; l ← mapM (field_label row) keys; mret (y :: l)).
  rewrite (IH Hks). unfold field_label. by rewrite (getitem_cell _ _ Hk).
Qed.

Lemma check_columns_ok keyword row :
  has_columns hierarchy row = true →
  check_columns keyword row = Ok (matches keyword row).
Proof.
  intros H. rewrite check_columns_unfold, (field_labels_ok _ _ H). done.
Qed.

Lemma elem_of_row_labels l row :
  l ∈ row_labels row ↔ ∃ c, c ∈ hierarchy ∧ l = lower (py_str (cell row c)).
Proof.
  unfold row_labels. rewrite list_elem_of_fmap.
  split; intros (c & ? & ?); eauto.
Qed.

Lemma matches_hits label row :
  matches label row = bool_decide (0 < hits label row)%nat.
Proof.
  unfold matches, hits. generalize (row_labels row) as ls.
  induction ls as [|l ls IH].
  - apply bool_decide_ext. rewrite elem_of_nil. simpl. lia.
  - rewrite filter_cons. destruct (decide (l = lower label)) as [->|Hne].
    + rewrite !bool_decide_eq_true_2; [done| simpl; lia | apply list_elem_of_here].
    + rewrite <- IH. apply bool_decide_ext. rewrite elem_of_cons.
      split; [intros [?|?]; [congruence|done] | auto].
Qed.

(** ** The aggregation loops *)

Lemma total_no_match label rs :
  existsb (matches label) rs = false → total label rs = 0.
Proof.
  induction rs as [|r rs IH]; [done|]. simpl.
  intros [Hr Hrs]%orb_false_elim. unfold total in *. simpl.
  rewrite Hr, (IH Hrs). done.
Qed.

Lemma add_row_ok (label : pystr) (m : gmap pystr Z) row :
  row_ok row = true →
  add_row label m row =
  Ok (if matches label row
      then <[label := default 0 (m !! label) + row_count row]> m else m).
Proof.
  intros [Hcols Hcount]%andb_prop. unfold add_row, row_count.
  rewrite (check_columns_ok _ _ Hcols).
  unfold mbind, mret, result_bind, result_ret in *.
  destruct (matches label row); [|done].
  destruct (getitem row (lit "count")) as [c|e]; [|done].
  destruct (py_int c); done.
Qed.

Lemma inner_loop (label : pystr) rs : ∀ m : gmap pystr Z,
  Forall (λ r, row_ok r = true) rs →
  foldM (add_row label) m rs =
  Ok (if existsb (matches label) rs
      then <[label := default 0 (m !! label) + total label rs]> m else m).
Proof.
  induction rs as [|r rs IH]; intros m Hrs; [done|].
  apply Forall_cons in Hrs as [Hr Hrs].
  cbn [foldM]. rewrite (add_row_ok _ _ _ Hr).
  unfold mbind, result_bind. rewrite (IH _ Hrs).
  unfold total. cbn [existsb Zsum]. fold (total label rs).
  destruct (matches label r); cbn [orb].
  - rewrite lookup_insert_eq. cbn [default].
    destruct (existsb (matches label) rs) eqn:Hex.
    + rewrite insert_insert_eq. unfold id. by rewrite Z.add_assoc.
    + by rewrite (total_no_match _ _ Hex), Z.add_0_r.
  - destruct (existsb (matches label) rs); done.
Qed.

Lemma outer_loop rs labels : ∀ m0 : gmap pystr Z,
  Forall (λ r, row_ok r = true) rs →
  NoDup labels →
  ∃ m : gmap pystr Z,
    foldM (λ sc label, foldM (add_row label) sc rs) m0 labels = Ok m ∧
    ∀ l, m !! l =
         if decide (l ∈ labels) then
           if existsb (matches l) rs
           then Some (default 0 (m0 !! l) + total l rs) else m0 !! l
         else m0 !! l.
Proof.
  induction labels as [|label labels IH]; intros m0 Hrs Hnd.
  - exists m0. split; [done|]. intros l. rewrite decide_False; [done|].
    apply not_elem_of_nil.
  - apply NoDup_cons in Hnd as [Hnotin Hnd].
    cbn [foldM]. rewrite (inner_loop _ _ _ Hrs). unfold mbind, result_bind.
    destruct (IH (if existsb (matches label) rs
                  then <[label := default 0 (m0 !! label) + total label rs]> m0
                  else m0) Hrs Hnd) as (m & Hm & Hlook).
    exists m. split; [done|]. intros l. rewrite Hlook.
    destruct (decide (l = label)) as [->|Hne].
    + rewrite (decide_False _ _ Hnotin), decide_True by apply list_elem_of_here.
      destruct (existsb (matches label) rs); [|done].
      by rewrite lookup_insert_eq.
    + assert ((if existsb (matches label) rs
               then <[label := default 0 (m0 !! label) + total label rs]> m0
               else m0) !! l = m0 !! l) as ->.
      { destruct (existsb (matches label) rs); [|done].
        by rewrite lookup_insert_ne. }
      destruct (decide (l ∈ labels)) as [Hin|Hnin].
      * rewrite decide_True by (by apply list_elem_of_further). done.
      * rewrite decide_False; [done|]. rewrite elem_of_cons.
        intros [?|?]; done.
Qed.

(** What the two loops leave in [structure_count]: a key for every label
    that matched some row, holding the sum of the counts of those rows. *)
Lemma aggregate_lookup structures df :
  Forall (λ r, row_ok r = true) (rows df) →
  ∃ m : gmap pystr Z,
    aggregate structures df = Ok m ∧
    ∀ l, m !! l =
         if decide (l ∈ structures) then
           if existsb (matches l) (rows df)
           then Some (total l (rows df)) else None
         else None.
Proof.
  intros Hrs. unfold aggregate, iterrows.
  destruct (outer_loop (rows df) (elements structures) ∅ Hrs
              (NoDup_elements structures)) as (m & Hm & Hlook).
  exists m. split; [done|]. intros l. rewrite Hlook, lookup_empty.
  destruct (decide (l ∈ structures)) as [Hin|Hnin].
  - rewrite decide_True by (by apply elem_of_elements).
    destruct (existsb (matches l) (rows df)); [|done]. cbn [default].
    by rewrite Z.add_0_l.
  - rewrite decide_False; [done|]. by rewrite elem_of_elements.
Qed.

Lemma aggregate_total structures df :
  Forall (λ r, row_ok r = true) (rows df) →
  ∃ m : gmap pystr Z,
    aggregate structures df = Ok m ∧
    ∀ l, l ∈ structures → summary_count m l = total l (rows df).
Proof.
  intros Hrs.
  destruct (aggregate_lookup structures df Hrs) as (m & Hm & Hlook).
  exists m. split; [done|]. intros l Hl. unfold summary_count.
  rewrite Hlook, decide_True by done.
  destruct (existsb (matches l) (rows df)) eqn:Hex; [done|].
  by rewrite (total_no_match _ _ Hex).
Qed.

(** ** Rewriting the cells of a row *)

Lemma assoc_fmap (f : pystr → pyobj → pyobj) key (row : series) :
  assoc key ((λ kv, (kv.1, f kv.1 kv.2)) <$> row) = f key <$> assoc key row.
Proof.
  induction row as [|[k v] row IH]; [done|].
  rewrite fmap_cons. cbn [assoc fst snd].
  destruct (decide (k = key)) as [->|_]; [done | apply IH].
Qed.

Lemma assoc_fill_row df row key :
  assoc key (fill_row df row) = fill_value (float_column df key) <$> assoc key row.
Proof. apply (assoc_fmap (λ k, fill_value (float_column df k))). Qed.

Lemma assoc_lower_field c row key :
  assoc key (lower_field c row) =
  (if decide (key = c) then cell_lower else id) <$> assoc key row.
Proof.
  induction row as [|[k v] row IH]; [done|].
  unfold lower_field in *. rewrite fmap_cons. cbn [fst snd].
  destruct (decide (k = c)) as [->|Hkc]; cbn [assoc fst snd].
  - destruct (decide (c = key)) as [->|_]; [|apply IH].
    by rewrite decide_True.
  - destruct (decide (k = key)) as [->|_]; [|apply IH].
    by rewrite decide_False.
Qed.

Lemma has_columns_fill_row keys df row :
  has_columns keys (fill_row df row) = has_columns keys row.
Proof.
  unfold has_columns. induction keys as [|k keys IH]; [done|].
  cbn [forallb]. rewrite IH. f_equal.
  apply bool_decide_ext. by rewrite assoc_fill_row, fmap_is_Some.
Qed.

Lemma lower_cell_lower v : lower (py_str (cell_lower v)) = lower (py_str v).
Proof. destruct v; try done. apply lower_idemp. Qed.

Lemma field_label_lower_field c row key :
  field_label (lower_field c row) key = field_label row key.
Proof.
  unfold field_label, getitem. rewrite assoc_lower_field.
  destruct (assoc key row) as [v|]; [|done]. cbn [fmap option_fmap option_map].
  destruct (decide (key = c)); [|done].
  unfold mbind, mret, result_bind, result_ret. by rewrite lower_cell_lower.
Qed.

Lemma mapM_result_ext {A B} (f g : A → result B) l :
  (∀ a, f a = g a) → mapM f l = mapM g l.
Proof.
  intros Hfg. induction l as [|a l IH]; [done|].
  change (mapM f (a :: l)) with (y ← f a; k ← mapM f l; mret (y :: k)).
  change (mapM g (a :: l)) with (y ← g a; k ← mapM g l; mret (y :: k)).
  by rewrite Hfg, IH.
Qed.

(** ** The claims about the matcher *)

(** C2.  On a row that has the eleven hierarchy columns, [check_columns]
    returns, and it returns [True] exactly when the lower-cased label is
    equal, as a whole string, to the lower-cased [str()] of the cell of one
    of [level_0] .. [level_10]; a label that equals none of them -- a proper
    substring of a name, say -- is not matched. *)
Theorem check_columns_exact (keyword : pystr) (row : series) :
  has_columns hierarchy row = true →
  ∃ b, check_columns keyword row = Ok b ∧
       (b = true ↔
        ∃ c, c ∈ hierarchy ∧ lower keyword = lower (py_str (cell row c))) ∧
       ((∀ c, c ∈ hierarchy → lower keyword ≠ lower (py_str (cell row c))) →
        b = false).
Proof.
  intros Hcols. exists (matches keyword row).
  split; [by apply check_columns_ok|].
  unfold matches. split.
  - rewrite bool_decide_eq_true. apply elem_of_row_labels.
  - intros Hne. apply bool_decide_eq_false.
    rewrite elem_of_row_labels. intros (c & Hc & Heq). by apply (Hne c).
Qed.

(** The label "cortex" against a row whose name is "cerebral cortex". *)
Lemma check_columns_exact_witness :
  has_columns hierarchy cerebral_row = true ∧
  check_columns (lit "cortex") cerebral_row = Ok false.
Proof.
  split; [reflexivity|].
  destruct (check_columns_exact (lit "cortex") cerebral_row eq_refl)
    as (b & Hb & _ & Hfalse).
  rewrite Hb. f_equal. apply Hfalse.
  intros c Hc. unfold hierarchy in Hc.
  repeat (apply elem_of_cons in Hc as [->|Hc]; [by vm_compute|]).
  by apply elem_of_nil in Hc.
Defined.

Lemma latin1_upper_cp (c : N) :
  (c < 256)%N → c ≠ 223%N → c ≠ 181%N → lower (upper_cp c) = [lower_cp c].
Proof.
  intros Hc H223 H181. unfold upper_cp, lower_cp.
  split_tests; try (exfalso; lia);
    cbn [lower fmap list_fmap]; f_equal; unfold lower_cp;
    split_tests; try reflexivity; lia.
Qed.

(** On text up to U+00FF without sharp s (U+00DF) and micro sign (U+00B5),
    upper-casing and then lower-casing is lower-casing. *)
Lemma latin1_upper_lower (s : pystr) :
  Forall (λ ch, (ch < 256)%N ∧ ch ≠ 223%N ∧ ch ≠ 181%N) s →
  lower (upper s) = lower s.
Proof.
  induction 1 as [|c s (Hc & H223 & H181) _ IH]; [done|].
  change (upper (c :: s)) with (upper_cp c ++ upper s).
  rewrite lower_app, (latin1_upper_cp c Hc H223 H181), IH. reflexivity.
Qed.

(** C4, as the code has it.  Matching does not depend on the case of the
    row: for every label and every row, lower-casing the cell of any column
    changes no answer (nor any exception).  It does not depend on the case
    of the label either, for a label of characters up to U+00FF whose
    upper case lower-cases back to the label's lower case -- every such
    label without sharp s and micro sign ([latin1_upper_lower]), so every
    ASCII label ([ascii_upper_lower]). *)
Theorem check_columns_case_insensitive (L : pystr) (row : series) (c : pystr) :
  (latin1 L → lower (upper L) = lower L →
   check_columns (upper L) row = check_columns L row) ∧
  check_columns L (lower_field c row) = check_columns L row.
Proof.
  split.
  - intros _ Hround. by rewrite !check_columns_unfold, Hround.
  - rewrite !check_columns_unfold.
    by rewrite (mapM_result_ext _ _ _ (field_label_lower_field c row)).
Qed.

Lemma check_columns_case_insensitive_witness :
  latin1 (lit "Thalamus") ∧
  lower (upper (lit "Thalamus")) = lower (lit "Thalamus") ∧
  check_columns (lit "Thalamus") capitals_row = Ok true ∧
  check_columns (upper (lit "Thalamus")) capitals_row = Ok true ∧
  lower_field (lit "level_3") capitals_row ≠ capitals_row ∧
  check_columns (lit "Thalamus") (lower_field (lit "level_3") capitals_row)
    = Ok true.
Proof.
  assert (latin1 (lit "Thalamus")) as Hrange
      by (repeat constructor).
  destruct (check_columns_case_insensitive (lit "Thalamus") capitals_row
              (lit "level_3")) as [Hlabel Hrow].
  split; [exact Hrange|]. split; [reflexivity|]. split; [reflexivity|].
  split; [rewrite (Hlabel Hrange eq_refl); reflexivity|].
  split; [discriminate|]. rewrite Hrow. reflexivity.
Defined.

(** C4, as the claim has it, fails for the label U+00DF: its upper case is
    "SS", whose lower case "ss" is not the label. *)
Lemma check_columns_upper_sharp_s :
  ¬ (check_columns sharp_s sharp_row = check_columns (upper sharp_s) sharp_row).
Proof. vm_compute. discriminate. Qed.

(** ** The claim about missing values *)

Lemma float_column_false df key :
  (∃ row s, row ∈ rows df ∧ assoc key row = Some (PStr s)) →
  float_column df key = false.
Proof.
  intros (row & s & Hrow & Hs). unfold float_column.
  apply not_true_iff_false. rewrite forallb_forall. intros Hall.
  apply list_elem_of_In, Hall in Hrow. by rewrite Hs in Hrow.
Qed.

(** C3, as the code has it.  On a table that has text in it, every row
    is handed to the matcher after [fillna(0)], which changes missing cells
    only.  In a hierarchy column that holds a string somewhere, a missing
    cell becomes the int 0, and the row then matches every label whose
    lower case is "0".  In a column of floats and missing cells (an empty
    column is one) it becomes the float 0.0, and the row matches every
    label whose lower case is "0.0".  A cell that is not missing is left as
    it is, and the row matches every label whose lower case is the lower
    case of the cell's own [str()] -- the int 7 is matched by "7". *)
Theorem fillna_sentinel (df : DataFrame) (row : series) (c : pystr) :
  text_table df →
  row ∈ rows df →
  c ∈ hierarchy →
  has_columns hierarchy row = true →
  fill_row df row ∈ iterrows (fillna df) ∧
  (assoc c row = Some PNaN →
   (∃ row' s, row' ∈ rows df ∧ assoc c row' = Some (PStr s)) →
   cell (fill_row df row) c = PInt 0 ∧
   ∀ label, lower label = lit "0" →
            check_columns label (fill_row df row) = Ok true) ∧
  (assoc c row = Some PNaN →
   float_column df c = true →
   cell (fill_row df row) c = PFloat float_zero ∧
   ∀ label, lower label = lit "0.0" →
            check_columns label (fill_row df row) = Ok true) ∧
  (∀ v, assoc c row = Some v → v ≠ PNaN →
        cell (fill_row df row) c = v ∧
        ∀ label, lower label = lower (py_str v) →
                 check_columns label (fill_row df row) = Ok true).
Proof.
  intros _ Hrow Hc Hcols.
  assert (∀ v label, cell (fill_row df row) c = v →
            lower label = lower (py_str v) →
            check_columns label (fill_row df row) = Ok true) as Hmatch.
  { intros v label Hv Hlabel.
    rewrite check_columns_ok by by rewrite has_columns_fill_row.
    f_equal. apply bool_decide_eq_true, elem_of_row_labels.
    exists c. split; [done|]. by rewrite Hv. }
  split; [|split; [|split]].
  - unfold iterrows, fillna. cbn [rows]. apply list_elem_of_fmap. by exists row.
  - intros Hnan Hstr.
    assert (cell (fill_row df row) c = PInt 0) as Hcell.
    { unfold cell. by rewrite assoc_fill_row, Hnan, (float_column_false _ _ Hstr). }
    split; [done|]. intros label Hlabel. by apply (Hmatch (PInt 0)).
  - intros Hnan Hfloat.
    assert (cell (fill_row df row) c = PFloat float_zero) as Hcell.
    { unfold cell. by rewrite assoc_fill_row, Hnan, Hfloat. }
    split; [done|]. intros label Hlabel. by apply (Hmatch (PFloat float_zero)).
  - intros v Hv Hne.
    assert (cell (fill_row df row) c = v) as Hcell.
    { unfold cell. rewrite assoc_fill_row, Hv. by destruct v. }
    split; [done|]. intros label Hlabel. by apply (Hmatch v).
Qed.

Lemma fillna_sentinel_witness :
  let row := region_row [PNaN; PStr (lit "root"); PNaN; PNaN; PNaN; PNaN;
                         PNaN; PNaN; PNaN; PNaN; PNaN; PStr (lit "root");
                         PNaN] in
  text_table mixed_table ∧
  row ∈ rows mixed_table ∧
  (lit "level_2" ∈ hierarchy) ∧
  has_columns hierarchy row = true ∧
  assoc (lit "level_2") row = Some PNaN ∧
  check_columns (lit "0") (fill_row mixed_table row) = Ok true ∧
  text_table gap_table ∧
  gap_row ∈ rows gap_table ∧
  assoc (lit "level_0") gap_row = Some (PInt 7) ∧
  check_columns (lit "7") (fill_row gap_table gap_row) = Ok true ∧
  assoc (lit "level_2") gap_row = Some PNaN ∧
  check_columns (lit "0.0") (fill_row gap_table gap_row) = Ok true.
Proof.
  intros row.
  assert (text_table mixed_table) as Htext.
  { eexists _, (lit "level_1"), (lit "root").
    split; [apply list_elem_of_here | reflexivity]. }
  assert (row ∈ rows mixed_table) as Hrow
      by (apply list_elem_of_further, list_elem_of_here).
  assert (lit "level_2" ∈ hierarchy) as Hc
      by (do 2 apply list_elem_of_further; apply list_elem_of_here).
  assert (text_table gap_table) as Htext'.
  { eexists _, (lit "level_1"), (lit "Thalamus").
    split; [apply list_elem_of_here | reflexivity]. }
  assert (gap_row ∈ rows gap_table) as Hrow' by apply list_elem_of_here.
  assert (lit "level_0" ∈ hierarchy) as Hc' by apply list_elem_of_here.
  destruct (fillna_sentinel mixed_table row (lit "level_2") Htext Hrow Hc eq_refl)
    as (_ & Hobj & _ & _).
  destruct (fillna_sentinel gap_table gap_row (lit "level_0") Htext' Hrow' Hc'
              eq_refl) as (_ & _ & _ & Hown).
  destruct (fillna_sentinel gap_table gap_row (lit "level_2") Htext' Hrow' Hc
              eq_refl) as (_ & _ & Hfloat & _).
  split; [exact Htext|]. split; [exact Hrow|]. split; [exact Hc|].
  split; [reflexivity|]. split; [reflexivity|].
  split.
  { apply Hobj; [reflexivity | | reflexivity].
    eexists _, (lit "Cortex"). split; [apply list_elem_of_here | reflexivity]. }
  split; [exact Htext'|]. split; [exact Hrow'|]. split; [reflexivity|].
  split.
  { apply (Hown (PInt 7)); [reflexivity | discriminate | reflexivity]. }
  split; [reflexivity|].
  apply Hfloat; reflexivity.
Defined.

(** C3, as the claim has it, fails on [gap_table]: its row has a hierarchy
    cell that is not a string ([level_0], the int 7) and nine missing ones
    ([level_2] .. [level_10]), and after [fillna(0)] the label "0" does not
    match it. *)
Lemma fillna_sentinel_gap :
  ¬ (∀ row c, row ∈ rows gap_table → c ∈ hierarchy →
              (∀ s, cell row c ≠ PStr s) →
              lower (py_str (cell (fill_row gap_table row) c)) = lit "0") ∧
  ¬ (∀ row, row ∈ rows gap_table →
            (∃ c, c ∈ hierarchy ∧ cell row c = PNaN) →
            check_columns (lit "0") (fill_row gap_table row) = Ok true).
Proof.
  assert (gap_row ∈ rows gap_table) as Hrow by apply list_elem_of_here.
  split.
  - intros H. specialize (H gap_row (lit "level_0") Hrow).
    assert (lit "level_0" ∈ hierarchy) as Hc by apply list_elem_of_here.
    specialize (H Hc). vm_compute in H.
    assert (∀ s : pystr, PInt 7 ≠ PStr s) as Hs by (intros s; discriminate).
    specialize (H Hs). discriminate.
  - intros H. specialize (H gap_row Hrow).
    assert (∃ c, c ∈ hierarchy ∧ cell gap_row c = PNaN) as Hc.
    { exists (lit "level_2"). split; [|reflexivity].
      do 2 apply list_elem_of_further. apply list_elem_of_here. }
    specialize (H Hc). vm_compute in H. discriminate.
Qed.

(** ** The claims about the aggregator *)

Lemma Zsum_ext {A} (f g : A → Z) l : (∀ a, f a = g a) → Zsum f l = Zsum g l.
Proof.
  intros Hfg. induction l as [|a l IH]; [done|]. simpl. by rewrite Hfg, IH.
Qed.

Lemma Zsum_fmap {A B} (f : B → Z) (g : A → B) l :
  Zsum f (g <$> l) = Zsum (λ a, f (g a)) l.
Proof.
  induction l as [|a l IH]; [done|]. rewrite fmap_cons. cbn [Zsum].
  by rewrite IH.
Qed.

Lemma count_fill_row df row :
  raw_row_ok row = true →
  ∃ n, getitem (fill_row df row) (lit "count") ≫= py_int = Ok n ∧
       (assoc (lit "count") row = Some PNaN → n = 0) ∧
       (∀ v, assoc (lit "count") row = Some v → v ≠ PNaN → py_int v = Ok n).
Proof.
  intros [_ Hcount]%andb_prop. unfold getitem. rewrite assoc_fill_row.
  destruct (assoc (lit "count") row) as [v|]; [|done].
  cbn [fmap option_fmap option_map].
  destruct v as [s|z|b|f|]; cbn [fill_value];
    try (cbn [mbind result_bind];
         destruct (py_int _) as [n|] eqn:Hn; [|done];
         exists n; split; [done|]; split; [done|];
         by intros ? [= <-] _).
  exists 0. split; [by destruct (float_column _ _)|].
  split; [done|]. by intros ? [= <-] ?.
Qed.

Lemma raw_row_ok_fill df row :
  raw_row_ok row = true → row_ok (fill_row df row) = true.
Proof.
  intros Hraw. destruct (count_fill_row df row Hraw) as (n & Hn & _).
  apply andb_prop in Hraw as [Hcols _]. unfold row_ok.
  by rewrite has_columns_fill_row, Hcols, Hn.
Qed.

(** C6.  When every row of the table read has its hierarchy columns and a
    [count] that is missing or that [int()] accepts, the loops over the
    filled table end without an exception; the total of every label is the
    sum of [int(row['count'])] over the filled rows it matches; and a row
    whose [count] was missing enters that sum with 0. *)
Theorem aggregate_sums_counts (structures : gset pystr) (df : DataFrame) :
  Forall (λ row, raw_row_ok row = true) (rows df) →
  ∃ m : gmap pystr Z,
    aggregate structures (fillna df) = Ok m ∧
    (∀ label, label ∈ structures →
       summary_count m label =
       Zsum (λ row, if matches label (fill_row df row)
                    then row_count (fill_row df row) else 0) (rows df)) ∧
    (∀ row, row ∈ rows df → assoc (lit "count") row = Some PNaN →
       getitem (fill_row df row) (lit "count") ≫= py_int = Ok 0 ∧
       row_count (fill_row df row) = 0).
Proof.
  intros Hraw.
  assert (Forall (λ r, row_ok r = true) (rows (fillna df))) as Hok.
  { cbn [fillna rows]. apply Forall_fmap. eapply Forall_impl; [exact Hraw|].
    intros row Hrow. by apply raw_row_ok_fill. }
  destruct (aggregate_total structures (fillna df) Hok) as (m & Hm & Htot).
  exists m. split; [done|]. split.
  - intros label Hlabel. rewrite (Htot _ Hlabel). unfold total.
    cbn [fillna rows]. apply Zsum_fmap.
  - intros row Hrow Hnan. rewrite Forall_forall in Hraw.
    destruct (count_fill_row df row (Hraw _ Hrow)) as (n & Hn & Hzero & _).
    unfold row_count. rewrite Hn, (Hzero Hnan). done.
Qed.

Lemma aggregate_sums_counts_witness :
  Forall (λ row, raw_row_ok row = true) (rows mixed_table) ∧
  ∃ m : gmap pystr Z,
    aggregate {[lit "root"]} (fillna mixed_table) = Ok m ∧
    summary_count m (lit "root") = 2.
Proof.
  assert (Forall (λ row, raw_row_ok row = true) (rows mixed_table)) as Hraw
      by (repeat constructor).
  split; [exact Hraw|].
  destruct (aggregate_sums_counts {[lit "root"]} mixed_table Hraw)
    as (m & Hm & Htot & _).
  exists m. split; [exact Hm|].
  rewrite (Htot (lit "root")) by (by apply elem_of_singleton).
  reflexivity.
Defined.

(** C10.  The labels looped over are the set of the names, so a name that
    the summary table repeats is visited once; and for every label the
    total is the sum, over the rows, of the row's count taken once if the
    label is found in one or in several of its hierarchy columns, and not
    at all otherwise. *)
Theorem row_counted_once (names : list pystr) (df : DataFrame) :
  Forall (λ row, row_ok row = true) (rows df) →
  ∃ m : gmap pystr Z,
    aggregate (list_to_set names) df = Ok m ∧
    ∀ label, label ∈ names →
      summary_count m label =
      Zsum (λ row, Z.min 1 (Z.of_nat (hits label row)) * row_count row)
           (iterrows df).
Proof.
  intros Hok.
  destruct (aggregate_total (list_to_set names) df Hok) as (m & Hm & Htot).
  exists m. split; [done|]. intros label Hlabel.
  rewrite (Htot label) by (by apply elem_of_list_to_set).
  unfold total, iterrows. apply Zsum_ext. intros row.
  rewrite matches_hits. case_bool_decide.
  - rewrite Z.min_l by lia. by rewrite Z.mul_1_l.
  - replace (hits label row) with 0%nat by lia. done.
Qed.

Lemma row_counted_once_witness :
  Forall (λ row, row_ok row = true) (rows twice_table) ∧
  hits (lit "thalamus") (rows twice_table !!! 0%nat) = 2%nat ∧
  ∃ m : gmap pystr Z,
    aggregate (list_to_set [lit "thalamus"; lit "thalamus"]) twice_table = Ok m ∧
    summary_count m (lit "thalamus") = 5.
Proof.
  assert (Forall (λ row, row_ok row = true) (rows twice_table)) as Hok
      by (repeat constructor).
  split; [exact Hok|]. split; [reflexivity|].
  destruct (row_counted_once [lit "thalamus"; lit "thalamus"] twice_table Hok)
    as (m & Hm & Htot).
  exists m. split; [exact Hm|].
  rewrite (Htot (lit "thalamus")) by apply list_elem_of_here.
  reflexivity.
Defined.

(** ** Columns *)

Lemma mapM_cons {A B} (f : A → result B) a l :
  mapM f (a :: l) = (y ← f a; k ← mapM f l; mret (y :: k)).
Proof. reflexivity. Qed.

Lemma getcol_cells df key :
  key ∈ columns df →
  Forall (λ row, is_Some (assoc key row)) (rows df) →
  getcol df key = Ok ((λ row, cell row key) <$> rows df).
Proof.
  intros Hkey Hrows. unfold getcol. rewrite decide_True by done.
  induction Hrows as [|row rs Hrow _ IH]; [done|].
  by rewrite mapM_cons, (getitem_cell _ _ Hrow), IH.
Qed.

Lemma mapM_py_lower_strs (l : list pystr) :
  mapM py_lower (PStr <$> l) = Ok (lower <$> l).
Proof.
  induction l as [|s l IH]; [done|].
  by rewrite fmap_cons, mapM_cons, IH.
Qed.

Lemma mapM_py_lower_raise (l : list pyobj) :
  (∃ v, v ∈ l ∧ ∀ s, v ≠ PStr s) → mapM py_lower l = Raise AttributeError.
Proof.
  intros (v & Hv & Hns). induction l as [|w l IH]; [by apply elem_of_nil in Hv|].
  rewrite mapM_cons. apply elem_of_cons in Hv as [<-|Hv].
  - destruct v; try done. by destruct (Hns s).
  - rewrite (IH Hv). by destruct w.
Qed.

Lemma names_are_strs df :
  Forall (λ row, ∃ s, assoc (lit "name") row = Some (PStr s)) (rows df) →
  (λ row, cell row (lit "name")) <$> rows df = PStr <$> (name_of <$> rows df).
Proof.
  intros Hrows. induction Hrows as [|row rs (s & Hs) _ IH]; [done|].
  rewrite !fmap_cons, IH. unfold name_of, cell. by rewrite Hs.
Qed.

Lemma assoc_setitem key v row k :
  assoc k (setitem key v row) = if decide (k = key) then Some v else assoc k row.
Proof.
  induction row as [|[k' w] row IH].
  - cbn [setitem assoc]. destruct (decide (key = k)) as [->|Hne].
    + by rewrite decide_True.
    + by rewrite decide_False.
  - cbn [setitem]. destruct (decide (k' = key)) as [->|Hne]; cbn [assoc].
    + destruct (decide (key = k)) as [->|Hne].
      * by rewrite decide_True.
      * by rewrite decide_False.
    + destruct (decide (k' = k)) as [->|Hne']; [|apply IH].
      by rewrite decide_False.
Qed.

Lemma zip_with_setitem key (f : series → pyobj) rs :
  zip_with (setitem key) (f <$> rs) rs = (λ row, setitem key (f row) row) <$> rs.
Proof. induction rs as [|r rs IH]; [done|]. by rewrite !fmap_cons, <- IH. Qed.

(** What lines 92-94 compute on a summary table whose names are strings. *)
Lemma add_counts_eq (df : DataFrame) (sc : gmap pystr Z) :
  lit "name" ∈ columns df →
  Forall (λ row, ∃ s, assoc (lit "name") row = Some (PStr s)) (rows df) →
  add_counts df sc =
  Ok {| columns := if decide (lit "count" ∈ columns df) then columns df
                   else columns df ++ [lit "count"];
        rows := (λ row, setitem (lit "count")
                          (PInt (summary_count sc (lower (name_of row)))) row)
                <$> rows df |}.
Proof.
  intros Hname Hrows. unfold add_counts.
  rewrite getcol_cells; [|done|].
  2:{ eapply Forall_impl; [exact Hrows|]. intros row (s & ->). by eexists. }
  rewrite (names_are_strs _ Hrows).
  unfold mbind at 1. unfold result_bind. rewrite mapM_py_lower_strs.
  unfold mbind, result_bind, setcol.
  rewrite decide_True by (by rewrite !length_fmap).
  do 2 f_equal. rewrite <- !list_fmap_compose.
  apply (zip_with_setitem (lit "count")
           (λ row, PInt (summary_count sc (lower (name_of row))))).
Qed.

Lemma name_of_str row s :
  assoc (lit "name") row = Some (PStr s) → name_of row = s.
Proof. intros Hs. unfold name_of, cell. by rewrite Hs. Qed.

Lemma summary_count_default (sc : gmap pystr Z) (name : pystr) :
  summary_count sc name = default 0 (sc !! name).
Proof. unfold summary_count. by destruct (sc !! name). Qed.

(** ** The claim about the writer *)

(** C5.  On a summary table with a [name] column of strings, lines 92-94
    return a table with as many rows as the input; its i-th row is the
    i-th input row with the cell [count] set to the value the map holds for
    the row's lower-cased name, or to 0 when the map has no such key, and
    every other cell as it was; rows with the same lower-cased name get the
    same count. *)
Theorem add_counts_rows (df : DataFrame) (sc : gmap pystr Z) :
  lit "name" ∈ columns df →
  Forall (λ row, ∃ s, assoc (lit "name") row = Some (PStr s)) (rows df) →
  ∃ out,
    add_counts df sc = Ok out ∧
    length (rows out) = length (rows df) ∧
    (∀ i row, rows df !! i = Some row →
       ∃ s row',
         assoc (lit "name") row = Some (PStr s) ∧
         rows out !! i = Some row' ∧
         assoc (lit "count") row' = Some (PInt (default 0 (sc !! lower s))) ∧
         ∀ k, k ≠ lit "count" → assoc k row' = assoc k row) ∧
    (∀ i j row row' s s',
       rows out !! i = Some row → rows out !! j = Some row' →
       assoc (lit "name") row = Some (PStr s) →
       assoc (lit "name") row' = Some (PStr s') →
       lower s = lower s' →
       assoc (lit "count") row = assoc (lit "count") row').
Proof.
  intros Hname Hrows. rewrite (add_counts_eq df sc Hname Hrows).
  eexists. split; [reflexivity|].
  cbn [rows]. split; [apply length_fmap|].
  assert (∀ i row', ((λ row, setitem (lit "count")
                       (PInt (summary_count sc (lower (name_of row)))) row)
                     <$> rows df) !! i = Some row' →
          ∃ row s, rows df !! i = Some row ∧
                   assoc (lit "name") row = Some (PStr s) ∧
                   row' = setitem (lit "count")
                            (PInt (default 0 (sc !! lower s))) row) as Hout.
  { intros i row' Hi. rewrite list_lookup_fmap in Hi.
    destruct (rows df !! i) as [row|] eqn:Hrow; [|done].
    rewrite Forall_lookup in Hrows. destruct (Hrows _ _ Hrow) as (s & Hs).
    exists row, s. split; [done|]. split; [done|].
    injection Hi as <-.
    by rewrite (name_of_str _ _ Hs), summary_count_default. }
  split.
  - intros i row Hrow.
    destruct (Forall_lookup_1 _ _ _ _ Hrows Hrow) as (s & Hs).
    exists s. eexists. split; [done|].
    split; [by rewrite list_lookup_fmap, Hrow|].
    rewrite assoc_setitem, decide_True by done.
    split.
    + by rewrite (name_of_str _ _ Hs), summary_count_default.
    + intros k Hk. by rewrite assoc_setitem, decide_False.
  - intros i j r r' s s' Hi Hj Hs Hs' Heq.
    destruct (Hout _ _ Hi) as (r0 & s0 & _ & Hs0 & ->).
    destruct (Hout _ _ Hj) as (r1 & s1 & _ & Hs1 & ->).
    rewrite assoc_setitem, decide_False in Hs by done.
    rewrite assoc_setitem, decide_False in Hs' by done.
    rewrite !assoc_setitem, !decide_True by done.
    congruence.
Qed.

Lemma add_counts_rows_witness :
  let df := summary_table [PStr (lit "Thalamus"); PStr (lit "Cortex");
                           PStr (lit "THALAMUS")] in
  let sc : gmap pystr Z := {[lit "thalamus" := 14]} in
  lit "name" ∈ columns df ∧
  Forall (λ row, ∃ s, assoc (lit "name") row = Some (PStr s)) (rows df) ∧
  ∃ out, add_counts df sc = Ok out ∧ length (rows out) = 3%nat.
Proof.
  intros df sc.
  assert (lit "name" ∈ columns df) as Hname by apply list_elem_of_here.
  assert (Forall (λ row, ∃ s, assoc (lit "name") row = Some (PStr s)) (rows df))
    as Hrows by (repeat constructor; by eexists).
  split; [exact Hname|]. split; [exact Hrows|].
  destruct (add_counts_rows df sc Hname Hrows) as (out & Hout & Hlen & _).
  exists out. split; [exact Hout|]. exact Hlen.
Defined.

(** ** The claims about the script *)

(** C1.  On the scenario tables the script ends normally and writes, next
    to the region-counts file, the summary table with the count 14 for
    Thalamus and 4 for Cortex. *)
Theorem main_scenario :
  (main scenario_argv scenario).1 = Ok () ∧
  files (main scenario_argv scenario).2
    !! lit "in/summary_structures_counts.csv" = Some scenario_output.
Proof. split; vm_compute; reflexivity. Qed.

(** C8, as the code has it.  With fewer than two arguments after the
    script name the script prints the two usage lines and leaves through
    [sys.exit()]: SystemExit without a code, which is exit status 0 and not
    a traceback; no file is read or written. *)
Theorem main_usage (argv : list pystr) (σ : state) :
  (length argv < 3)%nat →
  main argv σ =
    (Raise (SystemExit None),
     {| stdout := stdout σ ++ usage_lines; files := files σ;
        summary_structures_filepath := summary_structures_filepath σ;
        writable := writable σ |}) ∧
  exit_status (main argv σ).1 = 0 ∧
  unhandled_fault (main argv σ).1 = false ∧
  files (main argv σ).2 = files σ.
Proof.
  intros Hlen.
  assert (main argv σ =
    (Raise (SystemExit None),
     {| stdout := stdout σ ++ usage_lines; files := files σ;
        summary_structures_filepath := summary_structures_filepath σ;
        writable := writable σ |})) as ->.
  { unfold main. rewrite bool_decide_eq_true_2 by done.
    unfold mbind, M_bind, print, sys_exit, liftR, usage_lines.
    cbn [stdout files summary_structures_filepath].
    by rewrite <- app_assoc. }
  done.
Qed.

Lemma main_usage_witness :
  (length [lit "count_labels.py"; lit "in/summary.csv"] < 3)%nat ∧
  (main [lit "count_labels.py"; lit "in/summary.csv"] scenario).1
    = Raise (SystemExit None) ∧
  files (main [lit "count_labels.py"; lit "in/summary.csv"] scenario).2
    = files scenario.
Proof.
  assert (length [lit "count_labels.py"; lit "in/summary.csv"] < 3)%nat as Hlen
      by (simpl; lia).
  split; [exact Hlen|].
  destruct (main_usage [lit "count_labels.py"; lit "in/summary.csv"] scenario Hlen)
    as (Hrun & _ & _ & Hfiles).
  split; [by rewrite Hrun | exact Hfiles].
Defined.

(** C8, as the claim has it, fails on the exit status: it is 0. *)
Lemma main_usage_status_zero :
  ¬ (exit_status (main [lit "count_labels.py"] scenario).1 ≠ 0).
Proof. intros H. apply H. reflexivity. Qed.

(** C7.  [load_summary_structures] does not read the file its argument
    names: whatever path it is given it reads the file named by the module
    global.  Called with "b.csv" while the global is "a.csv", it returns the
    table of a.csv, which is not the table at b.csv. *)
Theorem load_summary_structures_reads_global :
  (∀ p q σ, load_summary_structures p σ = load_summary_structures q σ) ∧
  (load_summary_structures (lit "b.csv") two_files).1
    = Ok (summary_table [PStr (lit "Thalamus")], {[lit "thalamus"]}) ∧
  files two_files !! lit "b.csv" = Some (summary_table [PStr (lit "Cortex")]).
Proof.
  split; [reflexivity|]. split; vm_compute; reflexivity.
Qed.

(** ** The claim about the loaders *)

Lemma mapM_getitem_agree key k (rs rs' : list series) :
  Forall2 (λ row row', ∀ k, k ≠ key → assoc k row = assoc k row') rs rs' →
  k ≠ key →
  mapM (λ row, getitem row k) rs = mapM (λ row, getitem row k) rs'.
Proof.
  intros Hrs Hk. induction Hrs as [|r r' rs rs' Hr _ IH]; [done|].
  rewrite !mapM_cons, IH. unfold getitem. by rewrite (Hr k Hk).
Qed.

Lemma getcol_agree key k df df' :
  agree_off key df df' → k ≠ key → getcol df k = getcol df' k.
Proof.
  intros [Hcols Hrows] Hk. unfold getcol. rewrite Hcols.
  destruct (decide (k ∈ columns df')); [|done].
  by apply (mapM_getitem_agree key).
Qed.

Lemma load_summary_structures_eq (σ : state) (p path : pystr) (df : DataFrame) :
  summary_structures_filepath σ = Some path →
  files σ !! path = Some df →
  lit "name" ∈ columns df →
  Forall (λ row, is_Some (assoc (lit "name") row)) (rows df) →
  load_summary_structures p σ =
  (lowered ← mapM py_lower ((λ row, cell row (lit "name")) <$> rows df);
   mret (df, list_to_set lowered), σ).
Proof.
  intros Hglobal Hfile Hname Hrows.
  unfold load_summary_structures, get_summary_structures_filepath, read_csv,
    liftR.
  unfold mbind at 1 2 3 4. unfold M_bind. rewrite Hglobal, Hfile.
  rewrite (getcol_cells _ _ Hname Hrows).
  by destruct (mapM py_lower _).
Qed.

(** C9, as the code has it.  Neither loader validates anything, but the
    summary loader lower-cases every name while it loads: it fails with
    AttributeError when some name is not a string, and returns the table
    as read, with the set of its lower-cased names, when all are.  The
    region-counts loader never looks at the [count] column: two tables that
    differ there only load alike, each returned as read, so a malformed
    count reaches the aggregation loops. *)
Theorem loaders_validation (σ : state) (p path : pystr) (df : DataFrame) :
  summary_structures_filepath σ = Some path →
  files σ !! path = Some df →
  lit "name" ∈ columns df →
  Forall (λ row, is_Some (assoc (lit "name") row)) (rows df) →
  (Exists (λ row, ∀ s, assoc (lit "name") row ≠ Some (PStr s)) (rows df) →
   load_summary_structures p σ = (Raise AttributeError, σ)) ∧
  (Forall (λ row, ∃ s, assoc (lit "name") row = Some (PStr s)) (rows df) →
   load_summary_structures p σ =
     (Ok (df, list_to_set (lower <$> (name_of <$> rows df))), σ)) ∧
  (∀ q σ1 σ2 rc rc',
     files σ1 !! q = Some rc → files σ2 !! q = Some rc' →
     agree_off (lit "count") rc rc' →
     match (load_region_counts q σ1).1, (load_region_counts q σ2).1 with
     | Ok (t, levels), Ok (t', levels') => t = rc ∧ t' = rc' ∧ levels = levels'
     | Raise e, Raise e' => e = e'
     | _, _ => False
     end).
Proof.
  intros Hglobal Hfile Hname Hrows.
  rewrite (load_summary_structures_eq σ p path df Hglobal Hfile Hname Hrows).
  split; [|split].
  - intros (row & Hrow & Hns)%Exists_exists.
    rewrite mapM_py_lower_raise; [done|].
    exists (cell row (lit "name")). split.
    + apply list_elem_of_fmap. by exists row.
    + intros s Hs. rewrite Forall_forall in Hrows.
      destruct (Hrows _ Hrow) as [v Hv]. apply (Hns s).
      unfold cell in Hs. rewrite Hv in Hs. cbn in Hs. by rewrite Hv, Hs.
  - intros Hstrs. by rewrite (names_are_strs _ Hstrs), mapM_py_lower_strs.
  - intros q σ1 σ2 rc rc' H1 H2 Hagree.
    unfold load_region_counts, read_csv, liftR.
    unfold mbind, M_bind, result_bind, mret, M_ret, result_ret.
    rewrite H1, H2. cbn [fst].
    rewrite !(getcol_agree (lit "count") _ rc rc' Hagree) by discriminate.
    repeat match goal with
           | |- context [getcol rc' ?k] => destruct (getcol rc' k); [|done]
           end.
    match goal with
    | |- context [mapM py_lower ?l] => by destruct (mapM py_lower l)
    end.
Qed.

Lemma loaders_validation_witness :
  let df := summary_table [PStr (lit "Thalamus"); PNaN] in
  summary_structures_filepath blank_name = Some (lit "summary.csv") ∧
  files blank_name !! lit "summary.csv" = Some df ∧
  lit "name" ∈ columns df ∧
  Forall (λ row, is_Some (assoc (lit "name") row)) (rows df) ∧
  load_summary_structures (lit "summary.csv") blank_name
    = (Raise AttributeError, blank_name).
Proof.
  intros df.
  assert (files blank_name !! lit "summary.csv" = Some df) as Hfile
      by (vm_compute; reflexivity).
  assert (lit "name" ∈ columns df) as Hname by apply list_elem_of_here.
  assert (Forall (λ row, is_Some (assoc (lit "name") row)) (rows df)) as Hrows
      by (repeat constructor; by eexists).
  split; [reflexivity|]. split; [exact Hfile|]. split; [exact Hname|].
  split; [exact Hrows|].
  destruct (loaders_validation blank_name (lit "summary.csv")
              (lit "summary.csv") df eq_refl Hfile Hname Hrows) as (Hraise & _).
  apply Hraise. apply Exists_cons_tl, Exists_cons_hd. intros s. discriminate.
Defined.

(** C9, as the claim has it, fails on a summary table with a blank name:
    loading it does not succeed. *)
Lemma load_summary_structures_blank_name :
  ¬ (is_ok (load_summary_structures (lit "summary.csv") blank_name).1 = true).
Proof. vm_compute. discriminate. Qed.

(** A malformed count passes both loaders and stops the run in the
    aggregation loop, at [int()]. *)
Lemma malformed_count_reaches_aggregation :
  is_ok (load_region_counts (lit "region_counts.csv") malformed_counts_disk).1
    = true ∧
  (main [lit "count_labels.py"; lit "summary.csv"; lit "region_counts.csv"]
        malformed_counts_disk).1 = Raise ValueError.
Proof. split; vm_compute; reflexivity. Qed.

(** * Further properties of the code *)

(** ** The spin-box text *)

Lemma lstrip_char_app c (t s : pystr) :
  lstrip_char c (t ++ s) =
  match lstrip_char c t with
  | [] => lstrip_char c s
  | t' => t' ++ s
  end.
Proof.
  induction t as [|d t IH]; [reflexivity|].
  cbn [app lstrip_char]. by destruct (d =? c)%N.
Qed.

Lemma rstrip_char_app c (s t : pystr) :
  rstrip_char c (s ++ t) =
  match rstrip_char c t with
  | [] => rstrip_char c s
  | t' => s ++ t'
  end.
Proof.
  unfold rstrip_char. rewrite reverse_app, lstrip_char_app.
  destruct (lstrip_char c (reverse t)) as [|d u] eqn:Hu; [done|].
  rewrite reverse_app, reverse_involutive.
  destruct (reverse (d :: u)) eqn:Hr; [|done].
  apply (f_equal reverse) in Hr. rewrite reverse_involutive in Hr. done.
Qed.

Lemma lstrip_char_id c (s : pystr) : c ∉ s → lstrip_char c s = s.
Proof.
  destruct s as [|d s]; [done|]. intros Hc%not_elem_of_cons.
  cbn [lstrip_char]. destruct (N.eqb_spec d c) as [->|]; [by destruct Hc|done].
Qed.

Lemma rstrip_char_id c (s : pystr) : c ∉ s → rstrip_char c s = s.
Proof.
  intros Hc. unfold rstrip_char.
  rewrite lstrip_char_id, reverse_involutive; [done|].
  by rewrite elem_of_reverse.
Qed.

Lemma lstrip_char_suffix c (s : pystr) : lstrip_char c s `suffix_of` s.
Proof.
  induction s as [|d s IH]; [done|]. cbn [lstrip_char].
  destruct (d =? c)%N; [by apply suffix_cons_r | done].
Qed.

Lemma rstrip_char_no_other c d (s : pystr) :
  d ∉ s → d ∉ rstrip_char c s.
Proof.
  intros Hd Hin. apply Hd. unfold rstrip_char in Hin.
  rewrite elem_of_reverse in Hin.
  destruct (lstrip_char_suffix c (reverse s)) as [k Hk].
  apply elem_of_reverse. rewrite Hk. apply elem_of_app. by right.
Qed.

(** X1.  [textFromValue] leaves a text without "." alone.  Of a text
    [whole.frac] with a single "." it keeps the part before the point
    untouched, zeros included, drops the trailing zeros of the part after
    the point, and drops the point itself when nothing is left after it. *)
Theorem textFromValue_trims (whole frac : pystr) :
  46%N ∉ whole → 46%N ∉ frac →
  textFromValue whole = whole ∧
  textFromValue (whole ++ [46%N] ++ frac) =
    match rstrip_char 48 frac with
    | [] => whole
    | frac' => whole ++ [46%N] ++ frac'
    end.
Proof.
  intros Hwhole Hfrac. unfold textFromValue. split.
  - by rewrite bool_decide_eq_false_2.
  - rewrite bool_decide_eq_true_2
      by (apply elem_of_app; right; apply list_elem_of_here).
    rewrite (rstrip_char_app 48 whole).
    assert (rstrip_char 48 ([46%N] ++ frac) =
            [46%N] ++ rstrip_char 48 frac) as ->.
    { rewrite (rstrip_char_app 48 [46%N] frac).
      by destruct (rstrip_char 48 frac). }
    pose proof (rstrip_char_no_other 48 46 frac Hfrac) as Hfrac'.
    destruct (rstrip_char 48 frac) as [|d f'] eqn:Hf.
    + cbn [app]. rewrite (rstrip_char_app 46 whole [46%N]).
      change (rstrip_char 46 [46%N]) with (@nil N).
      by apply rstrip_char_id.
    + cbn [app].
      change (whole ++ 46%N :: d :: f') with (whole ++ ([46%N] ++ d :: f')).
      rewrite (rstrip_char_app 46 whole ([46%N] ++ d :: f')).
      rewrite (rstrip_char_app 46 [46%N] (d :: f')).
      by rewrite (rstrip_char_id 46 (d :: f') Hfrac').
Qed.

Lemma textFromValue_trims_witness :
  (46%N ∉ lit "100") ∧ (46%N ∉ lit "2500000000") ∧
  textFromValue (lit "100.2500000000") = lit "100.25" ∧
  textFromValue (lit "100.0000000000") = lit "100".
Proof.
  assert (46%N ∉ lit "100") as H1 by (rewrite list_elem_of_In; vm_compute; intuition lia).
  assert (46%N ∉ lit "2500000000") as H2 by (rewrite list_elem_of_In; vm_compute; intuition lia).
  assert (46%N ∉ lit "0000000000") as H3 by (rewrite list_elem_of_In; vm_compute; intuition lia).
  split; [exact H1|]. split; [exact H2|]. split.
  - exact (proj2 (textFromValue_trims (lit "100") (lit "2500000000") H1 H2)).
  - exact (proj2 (textFromValue_trims (lit "100") (lit "0000000000") H1 H3)).
Defined.

(** ** The transformation matrix *)

Lemma matrix_3x4 {A} (m : list (list A)) :
  length m = 3%nat → Forall (λ row, length row = 4%nat) m →
  ∃ a b c d e f g h i j k l,
    m = [[a; b; c; d]; [e; f; g; h]; [i; j; k; l]].
Proof.
  intros Hm Hrows.
  destruct m as [|r1 [|r2 [|r3 [|? ?]]]]; try discriminate.
  apply Forall_cons in Hrows as [H1 Hrows].
  apply Forall_cons in Hrows as [H2 Hrows].
  apply Forall_cons in Hrows as [H3 _].
  destruct r1 as [|a [|b [|c [|d [|? ?]]]]]; try discriminate.
  destruct r2 as [|e [|f [|g [|h [|? ?]]]]]; try discriminate.
  destruct r3 as [|i [|j [|k [|l [|? ?]]]]]; try discriminate.
  by exists a, b, c, d, e, f, g, h, i, j, k, l.
Qed.

(** X2.  On the 3x4 matrix of the spin boxes, line 645 turns the 3x3 part
    by half a turn -- the entry at row i, column j comes from row 2-i,
    column 2-j, so the first and third diagonal entries change places --
    and leaves the fourth column where it is; the shape is kept, and doing
    it twice gives the matrix back. *)
Theorem flip_matrix_3x4 {A} (m : list (list A)) :
  length m = 3%nat → Forall (λ row, length row = 4%nat) m →
  (∀ i j, (i < 3)%nat → (j < 3)%nat →
          entry (flip_matrix m) i j = entry m (2 - i) (2 - j)) ∧
  (∀ i, entry (flip_matrix m) i 3 = entry m i 3) ∧
  length (flip_matrix m) = 3%nat ∧
  Forall (λ row, length row = 4%nat) (flip_matrix m) ∧
  flip_matrix (flip_matrix m) = m.
Proof.
  intros Hm Hrows.
  destruct (matrix_3x4 m Hm Hrows)
    as (a & b & c & d & e & f & g & h & i & j & k & l & ->).
  split; [|split; [|split; [|split]]].
  - intros [|[|[|?]]] [|[|[|?]]] ? ?; try lia; reflexivity.
  - intros [|[|[|?]]]; reflexivity.
  - reflexivity.
  - repeat constructor.
  - reflexivity.
Qed.

Lemma flip_matrix_3x4_witness :
  length [[1; 0; 0; 7]; [0; 2; 0; 8]; [0; 0; 3; 9]] = 3%nat ∧
  Forall (λ row, length row = 4%nat)
         [[1; 0; 0; 7]; [0; 2; 0; 8]; [0; 0; 3; 9]] ∧
  flip_matrix [[1; 0; 0; 7]; [0; 2; 0; 8]; [0; 0; 3; 9]]
    = [[3; 0; 0; 7]; [0; 2; 0; 8]; [0; 0; 1; 9]] ∧
  flip_matrix (flip_matrix [[1; 0; 0; 7]; [0; 2; 0; 8]; [0; 0; 3; 9]])
    = [[1; 0; 0; 7]; [0; 2; 0; 8]; [0; 0; 3; 9]].
Proof.
  assert (Forall (λ row, length row = 4%nat)
            [[1; 0; 0; 7]; [0; 2; 0; 8]; [0; 0; 3; 9]]) as Hrows
      by (repeat constructor).
  split; [reflexivity|]. split; [exact Hrows|].
  destruct (flip_matrix_3x4 [[1; 0; 0; 7]; [0; 2; 0; 8]; [0; 0; 3; 9]]
              eq_refl Hrows) as (_ & _ & _ & _ & Hinv).
  split; [reflexivity | exact Hinv].
Defined.

(** ** More on the matcher *)

Lemma mapM_app_raise {A B} (f : A → result B) pre a post ys e :
  mapM f pre = Ok ys → f a = Raise e → mapM f (pre ++ a :: post) = Raise e.
Proof.
  revert ys. induction pre as [|b pre IH]; intros ys Hpre Ha.
  - cbn [app]. by rewrite mapM_cons, Ha.
  - cbn [app]. rewrite mapM_cons in Hpre. rewrite mapM_cons.
    destruct (f b) as [y|?]; [|done].
    destruct (mapM f pre) as [ys'|?] eqn:Hys; [|done].
    by rewrite (IH ys' eq_refl Ha).
Qed.

Lemma mapM_result_ext_in {A B} (f g : A → result B) l :
  (∀ a, a ∈ l → f a = g a) → mapM f l = mapM g l.
Proof.
  induction l as [|a l IH]; intros Hfg; [done|].
  rewrite !mapM_cons, (Hfg a) by apply list_elem_of_here.
  rewrite IH; [done|]. intros b Hb. by apply Hfg, list_elem_of_further.
Qed.

(** X3.  A row that lacks one of the hierarchy columns makes
    [check_columns] raise KeyError for the first one that is missing, in the
    order [level_0], ..., [level_10], whatever the label. *)
Theorem check_columns_missing_column (keyword : pystr) (row : series)
    (pre post : list pystr) (c : pystr) :
  hierarchy = pre ++ c :: post →
  has_columns pre row = true →
  assoc c row = None →
  check_columns keyword row = Raise (KeyError c).
Proof.
  intros Hsplit Hpre Hc. rewrite check_columns_unfold, Hsplit.
  rewrite (mapM_app_raise _ pre c post _ (KeyError c) (field_labels_ok _ _ Hpre));
    [done|].
  unfold field_label, getitem. by rewrite Hc.
Qed.

Lemma check_columns_missing_column_witness :
  let row := rows no_level_0 !!! 0%nat in
  hierarchy = [] ++ lit "level_0" :: hierarchy_tail ∧
  has_columns [] row = true ∧
  assoc (lit "level_0") row = None ∧
  check_columns (lit "thalamus") row = Raise (KeyError (lit "level_0")).
Proof.
  intros row. split; [reflexivity|]. split; [reflexivity|].
  split; [reflexivity|].
  exact (check_columns_missing_column (lit "thalamus") row []
           hierarchy_tail (lit "level_0") eq_refl eq_refl eq_refl).
Defined.

(** X4.  The answer of [check_columns] depends on the eleven hierarchy
    cells only: writing any value under any other label of the row
    ([region name], [count], ...) changes neither the answer nor the
    exception. *)
Theorem check_columns_other_columns (keyword : pystr) (row : series)
    (k : pystr) (v : pyobj) :
  k ∉ hierarchy →
  check_columns keyword (setitem k v row) = check_columns keyword row.
Proof.
  intros Hk. rewrite !check_columns_unfold.
  rewrite (mapM_result_ext_in (field_label (setitem k v row)) (field_label row));
    [done|].
  intros c Hc. unfold field_label, getitem. rewrite assoc_setitem.
  rewrite decide_False; [done|]. by intros ->.
Qed.

Lemma check_columns_other_columns_witness :
  (lit "region name" ∉ hierarchy) ∧
  check_columns (lit "cortex")
    (setitem (lit "region name") (PStr (lit "cortex")) cerebral_row)
  = check_columns (lit "cortex") cerebral_row.
Proof.
  assert (lit "region name" ∉ hierarchy) as Hk
      by (rewrite list_elem_of_In; vm_compute; intuition discriminate).
  split; [exact Hk|].
  exact (check_columns_other_columns (lit "cortex") cerebral_row
           (lit "region name") (PStr (lit "cortex")) Hk).
Defined.

(** ** More on [fillna] *)

Lemma fill_value_not_nan b v : fill_value b v ≠ PNaN.
Proof. destruct v; try done. by destruct b. Qed.

Lemma fill_value_fill_value b b' v :
  fill_value b' (fill_value b v) = fill_value b v.
Proof. destruct v; try done. by destruct b. Qed.

Lemma fill_row_fill_row df df' row :
  fill_row df' (fill_row df row) = fill_row df row.
Proof.
  unfold fill_row. rewrite <- list_fmap_compose. apply list_fmap_ext.
  intros _ [k v] _. cbn. by rewrite fill_value_fill_value.
Qed.

(** X5.  [fillna(0)] keeps the column labels, the number of rows and the
    labels of every row; no cell of the result is missing; a cell that was
    not missing is unchanged; and filling a second time changes nothing. *)
Theorem fillna_fills (df : DataFrame) :
  columns (fillna df) = columns df ∧
  length (rows (fillna df)) = length (rows df) ∧
  (∀ i (row : series), rows df !! i = Some row →
     ∃ row' : series,
             rows (fillna df) !! i = Some row' ∧
             row'.*1 = row.*1 ∧
             (∀ k, assoc k row' ≠ Some PNaN) ∧
             (∀ k v, assoc k row = Some v → v ≠ PNaN →
                     assoc k row' = Some v)) ∧
  fillna (fillna df) = fillna df.
Proof.
  split; [done|]. split; [apply length_fmap|]. split.
  - intros i row Hrow. exists (fill_row df row).
    split; [unfold fillna; cbn [rows]; by rewrite list_lookup_fmap, Hrow|].
    split.
    { unfold fill_row. rewrite <- list_fmap_compose. by apply list_fmap_ext. }
    split.
    + intros k. rewrite assoc_fill_row.
      destruct (assoc k row) as [v|]; [|done]. cbn.
      intros [= Hv]. by apply fill_value_not_nan in Hv.
    + intros k v Hv Hne. rewrite assoc_fill_row, Hv. cbn. f_equal.
      by destruct v.
  - unfold fillna. cbn [columns rows]. f_equal.
    rewrite <- list_fmap_compose. apply list_fmap_ext.
    intros _ row _. apply fill_row_fill_row.
Qed.

(** ** More on the writer *)

Lemma setitem_setitem key v w (row : series) :
  setitem key w (setitem key v row) = setitem key w row.
Proof.
  induction row as [|[k u] row IH].
  - cbn [setitem]. by rewrite decide_True.
  - cbn [setitem]. destruct (decide (k = key)) as [->|Hne]; cbn [setitem].
    + by rewrite decide_True.
    + by rewrite decide_False, IH.
Qed.

Lemma name_of_setitem_count v row :
  name_of (setitem (lit "count") v row) = name_of row.
Proof. unfold name_of, cell. by rewrite assoc_setitem, decide_False. Qed.

(** X6.  Feeding a written table back as the summary table is harmless:
    the [count] column is there once, and its old values play no part in
    the new ones. *)
Theorem add_counts_again (df : DataFrame) (sc sc' : gmap pystr Z) :
  summary_ok df →
  ∃ out, add_counts df sc = Ok out ∧
         add_counts out sc' = add_counts df sc' ∧
         columns out = (if decide (lit "count" ∈ columns df) then columns df
                        else columns df ++ [lit "count"]).
Proof.
  intros [Hname Hrows]. rewrite !(add_counts_eq df _ Hname Hrows).
  eexists. split; [reflexivity|]. split; [|reflexivity].
  rewrite add_counts_eq; cbn [columns rows].
  - f_equal. f_equal.
    + destruct (decide (lit "count" ∈ columns df)) as [Hin|Hnin].
      * by rewrite decide_True.
      * rewrite decide_True; [done|]. apply elem_of_app. right.
        apply list_elem_of_here.
    + rewrite <- list_fmap_compose. apply list_fmap_ext. intros _ row _. cbn.
      by rewrite name_of_setitem_count, setitem_setitem.
  - destruct (decide (lit "count" ∈ columns df)); [done|].
    apply elem_of_app. by left.
  - apply Forall_fmap. eapply Forall_impl; [exact Hrows|].
    intros row (s & Hs). exists s. cbn. by rewrite assoc_setitem, decide_False.
Qed.

Lemma add_counts_again_witness :
  summary_ok scenario_summary ∧
  ∃ out, add_counts scenario_summary {[lit "thalamus" := 14]} = Ok out ∧
         add_counts out {[lit "cortex" := 4]}
           = add_counts scenario_summary {[lit "cortex" := 4]}.
Proof.
  assert (summary_ok scenario_summary) as Hok.
  { split; [apply list_elem_of_here|]. repeat constructor; by eexists. }
  split; [exact Hok|].
  destruct (add_counts_again scenario_summary {[lit "thalamus" := 14]}
              {[lit "cortex" := 4]} Hok) as (out & Hout & Hagain & _).
  exists out. split; [exact Hout | exact Hagain].
Defined.

(** ** More on the aggregation loops *)

Lemma existsb_matches label (rs : list series) :
  Forall (λ r, row_ok r = true) rs →
  existsb (matches label) rs = true ↔
  ∃ row, row ∈ rs ∧ check_columns label row = Ok true.
Proof.
  intros Hrs. rewrite existsb_exists. rewrite Forall_forall in Hrs.
  split; intros (row & Hin & Hm).
  - apply list_elem_of_In in Hin. exists row. split; [done|].
    destruct (andb_prop _ _ (Hrs _ Hin)) as [Hcols _].
    by rewrite (check_columns_ok _ _ Hcols), Hm.
  - exists row. split; [by apply list_elem_of_In|].
    destruct (andb_prop _ _ (Hrs _ Hin)) as [Hcols _].
    rewrite (check_columns_ok _ _ Hcols) in Hm. by injection Hm.
Qed.

(** X7.  After the loops, [structure_count] has a key for exactly those
    labels of the set that matched at least one row: a label that matched
    nothing has no entry (its 0 in the output comes from the writer). *)
Theorem structure_count_keys (structures : gset pystr) (df : DataFrame) :
  Forall (λ row, row_ok row = true) (rows df) →
  ∃ m : gmap pystr Z,
    aggregate structures df = Ok m ∧
    ∀ label, is_Some (m !! label) ↔
             label ∈ structures ∧
             ∃ row, row ∈ rows df ∧ check_columns label row = Ok true.
Proof.
  intros Hok. destruct (aggregate_lookup structures df Hok) as (m & Hm & Hlook).
  exists m. split; [done|]. intros label. rewrite Hlook.
  rewrite <- (existsb_matches label (rows df) Hok).
  destruct (decide (label ∈ structures)) as [Hin|Hnin].
  - destruct (existsb (matches label) (rows df)).
    + split; [done | by eexists].
    + split; [by intros [? ?] | by intros [_ ?]].
  - split; [by intros [? ?] | by intros [? _]].
Qed.

Lemma structure_count_keys_witness :
  Forall (λ row, row_ok row = true) (rows twice_table) ∧
  ∃ m : gmap pystr Z,
    aggregate {[lit "thalamus"; lit "cortex"]} twice_table = Ok m ∧
    is_Some (m !! lit "thalamus") ∧ m !! lit "cortex" = None.
Proof.
  assert (Forall (λ row, row_ok row = true) (rows twice_table)) as Hok
      by (repeat constructor).
  split; [exact Hok|].
  destruct (structure_count_keys {[lit "thalamus"; lit "cortex"]} twice_table Hok)
    as (m & Hm & Hkeys).
  exists m. split; [exact Hm|]. split.
  - apply Hkeys. split; [apply elem_of_union_l; by apply elem_of_singleton|].
    eexists. split; [apply list_elem_of_here | reflexivity].
  - apply eq_None_not_Some. intros (_ & row & Hrow & Hmatch)%Hkeys.
    apply list_elem_of_singleton in Hrow as ->. discriminate.
Defined.

(** X8.  The order in which the labels of the set are visited does not
    matter: on rows that raise nothing, visiting them in any order without
    repetition gives the map [aggregate] returns. *)
Theorem label_order_irrelevant (structures : gset pystr) (df : DataFrame)
    (labels : list pystr) :
  Forall (λ row, row_ok row = true) (rows df) →
  NoDup labels →
  (∀ l, l ∈ labels ↔ l ∈ structures) →
  foldM (λ structure_count label,
           foldM (add_row label) structure_count (iterrows df)) ∅ labels
  = aggregate structures df.
Proof.
  intros Hok Hnd Hsame.
  destruct (aggregate_lookup structures df Hok) as (m & -> & Hlook).
  destruct (outer_loop (rows df) labels ∅ Hok Hnd) as (m' & Hm' & Hlook').
  unfold iterrows. rewrite Hm'. f_equal. apply map_eq. intros l.
  rewrite Hlook, Hlook', lookup_empty.
  destruct (decide (l ∈ labels)) as [Hin|Hnin].
  - rewrite decide_True by (by apply Hsame).
    destruct (existsb (matches l) (rows df)); [|done]. cbn [default].
    by rewrite Z.add_0_l.
  - rewrite decide_False; [done|]. by rewrite <- Hsame.
Qed.

Lemma label_order_irrelevant_witness :
  Forall (λ row, row_ok row = true) (rows twice_table) ∧
  NoDup [lit "thalamus"; lit "root"] ∧
  foldM (λ structure_count label,
           foldM (add_row label) structure_count (iterrows twice_table))
        ∅ [lit "thalamus"; lit "root"]
  = aggregate {[lit "root"; lit "thalamus"]} twice_table.
Proof.
  assert (Forall (λ row, row_ok row = true) (rows twice_table)) as Hok
      by (repeat constructor).
  assert (NoDup [lit "thalamus"; lit "root"]) as Hnd.
  { apply NoDup_cons. split; [|apply NoDup_singleton].
    intros Hin%list_elem_of_singleton. discriminate. }
  split; [exact Hok|]. split; [exact Hnd|].
  apply (label_order_irrelevant _ _ _ Hok Hnd).
  intros l. rewrite elem_of_union, !elem_of_singleton, elem_of_cons,
    list_elem_of_singleton. tauto.
Defined.

Lemma foldM_is_ok {A B} (f : A → B → result A) (good : B → bool) l :
  (∀ a b, b ∈ l → is_ok (f a b) = good b) →
  ∀ a, is_ok (foldM f a l) = forallb good l.
Proof.
  induction l as [|b l IH]; intros Hf a; [done|].
  cbn [foldM forallb]. pose proof (Hf a b (list_elem_of_here _ _)) as Hb.
  destruct (f a b) as [a'|e]; cbn in Hb; rewrite <- Hb; [|done].
  cbn. apply IH. intros a'' b' Hb'. by apply Hf, list_elem_of_further.
Qed.

Lemma add_row_is_ok (label : pystr) (m : gmap pystr Z) row :
  has_columns hierarchy row = true →
  is_ok (add_row label m row) =
  negb (matches label row) || is_ok (getitem row (lit "count") ≫= py_int).
Proof.
  intros Hcols. unfold add_row. rewrite (check_columns_ok _ _ Hcols).
  unfold mbind, mret, result_bind, result_ret.
  destruct (matches label row); [|done].
  destruct (getitem row (lit "count")) as [c|e]; [|done].
  by destruct (py_int c).
Qed.

(** X9.  [int(row['count'])] is evaluated for matching pairs only.  On
    rows that have the hierarchy columns, the loops end without an
    exception exactly when every row that some label of the set matches has
    a count that [int()] accepts; a malformed count in a row that no label
    matches stops nothing. *)
Theorem aggregate_needs_matched_counts (structures : gset pystr)
    (df : DataFrame) :
  Forall (λ row, has_columns hierarchy row = true) (rows df) →
  is_ok (aggregate structures df) = true ↔
  Forall (needed_counts_ok structures) (rows df).
Proof.
  intros Hcols. unfold aggregate, iterrows.
  rewrite (foldM_is_ok _
             (λ label, forallb (λ row, negb (matches label row)
                          || is_ok (getitem row (lit "count") ≫= py_int))
                         (rows df))).
  - rewrite forallb_forall, Forall_forall. unfold needed_counts_ok.
    split.
    + intros H row Hrow label Hlabel Hmatch.
      apply elem_of_elements, list_elem_of_In in Hlabel.
      specialize (H label Hlabel). rewrite forallb_forall in H.
      apply list_elem_of_In in Hrow. specialize (H row Hrow).
      by rewrite Hmatch in H.
    + intros H label Hlabel%list_elem_of_In%elem_of_elements.
      apply forallb_forall. intros row Hrow%list_elem_of_In.
      destruct (matches label row) eqn:Hmatch; [|done].
      by apply (H row Hrow label).
  - intros m label _. apply foldM_is_ok. intros m' row Hrow.
    rewrite Forall_forall in Hcols. by apply add_row_is_ok, Hcols.
Qed.

Lemma aggregate_needs_matched_counts_witness :
  Forall (λ row, has_columns hierarchy row = true) (rows malformed_counts) ∧
  is_ok (aggregate {[lit "cortex"]} malformed_counts) = true ∧
  ¬ Forall (needed_counts_ok {[lit "thalamus"]}) (rows malformed_counts).
Proof.
  assert (Forall (λ row, has_columns hierarchy row = true)
            (rows malformed_counts)) as Hcols by (repeat constructor).
  split; [exact Hcols|]. split; [reflexivity|].
  intros H.
  apply (aggregate_needs_matched_counts {[lit "thalamus"]} malformed_counts Hcols)
    in H.
  vm_compute in H. discriminate.
Defined.

(** ** More on the region-counts loader *)

Lemma result_bind_Ok {A B} (a : A) (f : A → result B) : Ok a ≫= f = f a.
Proof. reflexivity. Qed.

(** [load_region_counts] reads its eleven columns in order, then lower-cases
    the cells that are not missing. *)
Lemma load_region_counts_unfold (p : pystr) (σ : state) :
  load_region_counts p σ =
  match files σ !! p with
  | Some df =>
      (cols ← mapM (getcol df) loader_columns;
       lowered ← mapM py_lower
                   (filter (λ x, py_eq_self x = true) (mjoin cols));
       mret (df, list_to_set lowered), σ)
  | None => (Raise (FileNotFoundError p), σ)
  end.
Proof.
  unfold load_region_counts, read_csv, liftR, loader_columns.
  unfold mbind at 1. unfold M_bind.
  destruct (files σ !! p) as [df|]; [|done]. f_equal.
  rewrite !mapM_cons. unfold mbind, result_bind, mret, result_ret.
  repeat match goal with
         | |- context [getcol df ?k] => destruct (getcol df k); [|done]
         end.
  cbn -[filter list_to_set]. by rewrite app_nil_r.
Qed.

Lemma getcols_cells df (cs : list pystr) :
  Forall (λ c, c ∈ columns df) cs →
  Forall (λ row, Forall (λ c, is_Some (assoc c row)) cs) (rows df) →
  mapM (getcol df) cs = Ok ((λ c, (λ row, cell row c) <$> rows df) <$> cs).
Proof.
  intros Hcs Hrows. induction Hcs as [|c cs Hc _ IH]; [done|].
  rewrite mapM_cons, getcol_cells; [|done|].
  - rewrite IH; [done|]. eapply Forall_impl; [exact Hrows|].
    intros row Hrow. by apply Forall_cons in Hrow as [_ ?].
  - eapply Forall_impl; [exact Hrows|].
    intros row Hrow. by apply Forall_cons in Hrow as [? _].
Qed.

Lemma mapM_py_lower_filter (l : list pyobj) :
  Forall (λ v, str_or_nan v = true) l →
  mapM py_lower (filter (λ x, py_eq_self x = true) l) = Ok (lower <$> strs l).
Proof.
  induction 1 as [|v l Hv _ IH]; [done|].
  rewrite filter_cons. destruct v; try discriminate; cbn.
  - rewrite decide_True by done. by rewrite mapM_cons, IH.
  - rewrite decide_False by done. exact IH.
Qed.

Lemma mapM_py_lower_filter_raise (l : list pyobj) :
  Exists (λ v, str_or_nan v = false) l →
  mapM py_lower (filter (λ x, py_eq_self x = true) l) = Raise AttributeError.
Proof.
  intros (v & Hv & Hbad)%Exists_exists. apply mapM_py_lower_raise.
  exists v. split.
  - apply list_elem_of_filter. split; [by destruct v | done].
  - intros s ->. discriminate.
Qed.

Lemma loader_cells_join df :
  mjoin ((λ c, (λ row, cell row c) <$> rows df) <$> loader_columns)
  = loader_cells df.
Proof. unfold loader_cells, loader_columns. cbn. by rewrite !app_nil_r. Qed.

Lemma load_region_counts_cells (σ : state) (p : pystr) (df : DataFrame) :
  files σ !! p = Some df →
  Forall (λ c, c ∈ columns df) loader_columns →
  Forall (λ row, Forall (λ c, is_Some (assoc c row)) loader_columns) (rows df) →
  (Forall (λ v, str_or_nan v = true) (loader_cells df) →
   load_region_counts p σ
     = (Ok (df, list_to_set (lower <$> strs (loader_cells df))), σ)) ∧
  (Exists (λ v, str_or_nan v = false) (loader_cells df) →
   load_region_counts p σ = (Raise AttributeError, σ)).
Proof.
  intros Hfile Hcols Hrows.
  rewrite load_region_counts_unfold, Hfile, (getcols_cells _ _ Hcols Hrows).
  rewrite result_bind_Ok, loader_cells_join.
  split; intros Hcells.
  - by rewrite (mapM_py_lower_filter _ Hcells).
  - by rewrite (mapM_py_lower_filter_raise _ Hcells).
Qed.

(** X10.  On a table that has the loader's eleven columns
    ([level_1] .. [level_10], [region name]), [load_region_counts] returns
    the table as read, with the set of the lower-cased names of those
    columns, when each of their cells is a string or missing; a cell that is
    there and is not a string -- a number -- makes it raise AttributeError.
    [level_0] and [count] are not looked at. *)
Theorem load_region_counts_names (σ : state) (p : pystr) (df : DataFrame) :
  files σ !! p = Some df →
  Forall (λ c, c ∈ columns df) loader_columns →
  Forall (λ row, Forall (λ c, is_Some (assoc c row)) loader_columns) (rows df) →
  (Forall (λ v, str_or_nan v = true) (loader_cells df) →
   load_region_counts p σ
     = (Ok (df, list_to_set (lower <$> strs (loader_cells df))), σ)) ∧
  (Exists (λ v, str_or_nan v = false) (loader_cells df) →
   load_region_counts p σ = (Raise AttributeError, σ)).
Proof. apply load_region_counts_cells. Qed.

Lemma load_region_counts_names_witness :
  let σ := disk [(lit "region_counts.csv", no_level_0)] in
  files σ !! lit "region_counts.csv" = Some no_level_0 ∧
  Forall (λ c, c ∈ columns no_level_0) loader_columns ∧
  Forall (λ row, Forall (λ c, is_Some (assoc c row)) loader_columns)
         (rows no_level_0) ∧
  load_region_counts (lit "region_counts.csv") σ
    = (Ok (no_level_0, {[lit "thalamus"]}), σ).
Proof.
  intros σ.
  assert (files σ !! lit "region_counts.csv" = Some no_level_0) as Hfile
      by (vm_compute; reflexivity).
  assert (Forall (λ c, c ∈ columns no_level_0) loader_columns) as Hcols.
  { apply Forall_forall. intros c Hc. apply elem_of_app. by left. }
  assert (Forall (λ row, Forall (λ c, is_Some (assoc c row)) loader_columns)
            (rows no_level_0)) as Hrows
      by (repeat constructor; by eexists).
  split; [exact Hfile|]. split; [exact Hcols|]. split; [exact Hrows|].
  destruct (load_region_counts_names σ (lit "region_counts.csv") no_level_0
              Hfile Hcols Hrows) as [Hgood _].
  rewrite Hgood by (repeat constructor). vm_compute. reflexivity.
Defined.

(** X11.  A table that lacks one of the loader's columns makes
    [load_region_counts] raise KeyError for the first one that is missing,
    in the order [level_1], ..., [level_10], [region name]. *)
Theorem load_region_counts_missing_column (σ : state) (p : pystr)
    (df : DataFrame) (pre post : list pystr) (c : pystr) :
  files σ !! p = Some df →
  loader_columns = pre ++ c :: post →
  Forall (λ c, c ∈ columns df) pre →
  Forall (λ row, Forall (λ c, is_Some (assoc c row)) pre) (rows df) →
  c ∉ columns df →
  load_region_counts p σ = (Raise (KeyError c), σ).
Proof.
  intros Hfile Hsplit Hpre Hrows Hc.
  rewrite load_region_counts_unfold, Hfile, Hsplit.
  rewrite (mapM_app_raise _ pre c post _ (KeyError c) (getcols_cells _ _ Hpre Hrows));
    [done|].
  unfold getcol. by rewrite decide_False.
Qed.

Lemma load_region_counts_missing_column_witness :
  let σ := disk [(lit "summary.csv", scenario_summary)] in
  files σ !! lit "summary.csv" = Some scenario_summary ∧
  loader_columns = [] ++ lit "level_1" :: tail loader_columns ∧
  (lit "level_1" ∉ columns scenario_summary) ∧
  load_region_counts (lit "summary.csv") σ
    = (Raise (KeyError (lit "level_1")), σ).
Proof.
  intros σ.
  assert (files σ !! lit "summary.csv" = Some scenario_summary) as Hfile
      by (vm_compute; reflexivity).
  assert (lit "level_1" ∉ columns scenario_summary) as Hc.
  { intros Hin%list_elem_of_singleton. discriminate. }
  split; [exact Hfile|]. split; [reflexivity|]. split; [exact Hc|].
  apply (load_region_counts_missing_column σ (lit "summary.csv")
           scenario_summary [] (tail loader_columns) (lit "level_1")
           Hfile eq_refl); [constructor | | exact Hc].
  repeat constructor.
Defined.

(** ** The whole run *)

Lemma M_bind_Ok {A B} (m : M A) (f : A → M B) σ a σ' :
  m σ = (Ok a, σ') → (m ≫= f) σ = f a σ'.
Proof. intros H. unfold mbind, M_bind. by rewrite H. Qed.

Lemma M_bind_Raise {A B} (m : M A) (f : A → M B) σ e σ' :
  m σ = (Raise e, σ') → (m ≫= f) σ = (Raise e, σ').
Proof. intros H. unfold mbind, M_bind. by rewrite H. Qed.

Lemma load_summary_structures_strs (σ : state) (p path : pystr) (df : DataFrame) :
  summary_structures_filepath σ = Some path →
  files σ !! path = Some df →
  summary_ok df →
  load_summary_structures p σ =
  (Ok (df, list_to_set (lower <$> (name_of <$> rows df))), σ).
Proof.
  intros Hglobal Hfile [Hname Hrows].
  rewrite (load_summary_structures_eq σ p path df Hglobal Hfile Hname).
  - by rewrite (names_are_strs _ Hrows), mapM_py_lower_strs.
  - eapply Forall_impl; [exact Hrows|]. intros row (s & ->). by eexists.
Qed.

Lemma region_ok_cells df :
  region_ok df →
  Forall (λ row, Forall (λ c, is_Some (assoc c row)) loader_columns) (rows df) ∧
  Forall (λ v, str_or_nan v = true) (loader_cells df).
Proof.
  intros [_ Hrows]. split.
  - eapply Forall_impl; [exact Hrows|]. intros row [_ Hcells].
    eapply Forall_impl; [exact Hcells|]. intros c (v & -> & _). by eexists.
  - apply Forall_forall. intros v. unfold loader_cells.
    rewrite list_elem_of_bind. intros (c & Hv & Hc).
    apply list_elem_of_fmap in Hv as (row & -> & Hrow).
    rewrite Forall_forall in Hrows. destruct (Hrows _ Hrow) as [_ Hcells].
    rewrite Forall_forall in Hcells. destruct (Hcells _ Hc) as (v & Hv & Hok).
    unfold cell. by rewrite Hv.
Qed.

Lemma matches_lower label row : matches (lower label) row = matches label row.
Proof. unfold matches. by rewrite lower_idemp. Qed.

Lemma total_lower label rs : total (lower label) rs = total label rs.
Proof.
  unfold total. apply Zsum_ext. intros row. by rewrite matches_lower.
Qed.

Lemma main_before_write (σ : state) (prog sp rp : pystr) (rest : list pystr)
    (sdf rdf : DataFrame) :
  files σ !! sp = Some sdf →
  files σ !! rp = Some rdf →
  summary_ok sdf →
  region_ok rdf →
  main (prog :: sp :: rp :: rest) σ =
  to_csv (counted sdf rdf) (output_of rp rest)
    {| stdout := stdout σ ++ info_lines sp rp (output_of rp rest);
       files := files σ; summary_structures_filepath := Some sp;
       writable := writable σ |}.
Proof.
  intros Hs Hr Hsum Hreg.
  unfold main. rewrite bool_decide_eq_false_2 by (cbn; lia).
  do 3 (erewrite M_bind_Ok by reflexivity).
  erewrite (M_bind_Ok _ _ _ (output_of rp rest)).
  2:{ destruct rest as [|out rest]; [reflexivity|].
      rewrite bool_decide_eq_true_2 by (cbn; lia). reflexivity. }
  do 3 (erewrite M_bind_Ok by reflexivity).
  erewrite M_bind_Ok
    by (by apply (load_summary_structures_strs _ sp sp sdf)).
  destruct (region_ok_cells rdf Hreg) as [Hcells Hstrs].
  destruct Hreg as [Hcols Hrows].
  erewrite M_bind_Ok
    by (by apply (load_region_counts_cells _ rp rdf)).
  assert (Forall (λ row, raw_row_ok row = true) (rows rdf)) as Hraw.
  { eapply Forall_impl; [exact Hrows|]. by intros row [? _]. }
  assert (Forall (λ r, row_ok r = true) (rows (fillna rdf))) as Hok.
  { unfold fillna. cbn [rows]. apply Forall_fmap.
    eapply Forall_impl; [exact Hraw|]. intros row Hrow.
    by apply raw_row_ok_fill. }
  destruct (aggregate_total (list_to_set (lower <$> (name_of <$> rows sdf)))
              (fillna rdf) Hok) as (m & Hm & Htot).
  erewrite M_bind_Ok by (unfold liftR; by rewrite Hm).
  destruct Hsum as [Hname Hnames].
  erewrite M_bind_Ok
    by (unfold liftR; by rewrite (add_counts_eq sdf m Hname Hnames)).
  unfold info_lines. cbn [stdout]. rewrite <- !app_assoc. cbn [app].
  f_equal. unfold counted. f_equal.
  apply list_fmap_ext. intros _ row Hrow%list_elem_of_lookup_2.
  rewrite Htot, total_lower; [done|].
  apply elem_of_list_to_set, list_elem_of_fmap. exists (name_of row).
  split; [done|]. apply list_elem_of_fmap. by exists row.
Qed.

Lemma main_run (σ : state) (prog sp rp : pystr) (rest : list pystr)
    (sdf rdf : DataFrame) :
  files σ !! sp = Some sdf →
  files σ !! rp = Some rdf →
  summary_ok sdf →
  region_ok rdf →
  writable σ (output_of rp rest) = true →
  main (prog :: sp :: rp :: rest) σ =
  (Ok (),
   {| stdout := stdout σ ++ info_lines sp rp (output_of rp rest);
      files := <[output_of rp rest := counted sdf rdf]> (files σ);
      summary_structures_filepath := Some sp;
      writable := writable σ |}).
Proof.
  intros Hs Hr Hsum Hreg Hw.
  rewrite (main_before_write σ prog sp rp rest sdf rdf Hs Hr Hsum Hreg).
  unfold to_csv. cbn [writable stdout files summary_structures_filepath].
  by rewrite Hw.
Qed.

Lemma main_run_unwritable (σ : state) (prog sp rp : pystr)
    (rest : list pystr) (sdf rdf : DataFrame) :
  files σ !! sp = Some sdf →
  files σ !! rp = Some rdf →
  summary_ok sdf →
  region_ok rdf →
  writable σ (output_of rp rest) = false →
  main (prog :: sp :: rp :: rest) σ =
  (Raise (OSError (output_of rp rest)),
   {| stdout := stdout σ ++ info_lines sp rp (output_of rp rest);
      files := files σ; summary_structures_filepath := Some sp;
      writable := writable σ |}).
Proof.
  intros Hs Hr Hsum Hreg Hw.
  rewrite (main_before_write σ prog sp rp rest sdf rdf Hs Hr Hsum Hreg).
  unfold to_csv. cbn [writable]. by rewrite Hw.
Qed.

(** X12.  The whole script on accepted tables.  Given at least the two
    paths, a summary table with a [name] column of strings and a
    region-counts table with text in it, the loader's columns holding names
    or nothing, the hierarchy columns in every row and counts that are
    missing or convert, the run prints the three paths and goes on to the
    write, at the third argument if there is one, otherwise next to the
    region-counts file.  Where that path can be written the run ends
    normally and the file there holds the summary rows in their order, each
    with [count] set to the sum of [int(count)] over the filled region rows
    that its lower-cased name matches, no other path changing; where it
    cannot, the run ends with OSError and no file changes. *)
Theorem main_writes_totals (σ : state) (argv : list pystr) (sp rp : pystr)
    (sdf rdf : DataFrame) :
  argv !! 1%nat = Some sp →
  argv !! 2%nat = Some rp →
  files σ !! sp = Some sdf →
  files σ !! rp = Some rdf →
  summary_ok sdf →
  region_ok rdf →
  text_table rdf →
  main argv σ =
  (if writable σ (default (default_output rp) (argv !! 3%nat))
   then Ok ()
   else Raise (OSError (default (default_output rp) (argv !! 3%nat))),
   {| stdout := stdout σ ++
                info_lines sp rp (default (default_output rp) (argv !! 3%nat));
      files := if writable σ (default (default_output rp) (argv !! 3%nat))
               then <[default (default_output rp) (argv !! 3%nat)
                      := counted sdf rdf]> (files σ)
               else files σ;
      summary_structures_filepath := Some sp;
      writable := writable σ |}).
Proof.
  intros H1 H2 Hs Hr Hsum Hreg _.
  destruct argv as [|prog [|sp' [|rp' rest]]]; try discriminate.
  injection H1 as ->. injection H2 as ->.
  assert (default (default_output rp) ((prog :: sp :: rp :: rest) !! 3%nat)
          = output_of rp rest) as -> by (by destruct rest).
  destruct (writable σ (output_of rp rest)) eqn:Hw.
  - exact (main_run σ prog sp rp rest sdf rdf Hs Hr Hsum Hreg Hw).
  - exact (main_run_unwritable σ prog sp rp rest sdf rdf Hs Hr Hsum Hreg Hw).
Qed.

Lemma scenario_tables_ok : summary_ok scenario_summary ∧ region_ok scenario_regions.
Proof.
  split.
  - split; [apply list_elem_of_here|]. repeat constructor; by eexists.
  - split.
    + apply Forall_forall. intros c Hc.
      apply list_elem_of_In in Hc. apply list_elem_of_In.
      vm_compute in Hc. vm_compute.
      repeat (destruct Hc as [<-|Hc]; [intuition|]). destruct Hc.
    + repeat constructor; by eexists.
Qed.

Lemma scenario_regions_text : text_table scenario_regions.
Proof.
  eexists _, (lit "level_1"), (lit "Thalamus").
  split; [apply list_elem_of_here | reflexivity].
Qed.

Lemma main_writes_totals_witness :
  scenario_argv !! 1%nat = Some (lit "in/summary.csv") ∧
  scenario_argv !! 2%nat = Some (lit "in/region_counts.csv") ∧
  summary_ok scenario_summary ∧ region_ok scenario_regions ∧
  text_table scenario_regions ∧
  (main scenario_argv scenario).1 = Ok () ∧
  files (main scenario_argv scenario).2
    !! lit "in/summary_structures_counts.csv"
  = Some (counted scenario_summary scenario_regions).
Proof.
  destruct scenario_tables_ok as [Hsum Hreg].
  split; [reflexivity|]. split; [reflexivity|].
  split; [exact Hsum|]. split; [exact Hreg|].
  split; [exact scenario_regions_text|].
  rewrite (main_writes_totals scenario scenario_argv (lit "in/summary.csv")
             (lit "in/region_counts.csv") scenario_summary scenario_regions
             eq_refl eq_refl eq_refl eq_refl Hsum Hreg scenario_regions_text).
  split; [reflexivity|]. cbn [snd files]. apply lookup_insert_eq.
Defined.

(** ** Where the result goes *)

Lemma from_sep_app (t s : pystr) :
  sep ∉ t → from_sep (t ++ sep :: s) = sep :: s.
Proof.
  induction t as [|c t IH]; intros Ht.
  - reflexivity.
  - apply not_elem_of_cons in Ht as [Hc Ht]. cbn [app from_sep].
    destruct (N.eqb_spec c sep) as [->|_]; [done|]. by apply IH.
Qed.

Lemma from_sep_none (t : pystr) : sep ∉ t → from_sep t = [].
Proof.
  induction t as [|c t IH]; intros Ht; [done|].
  apply not_elem_of_cons in Ht as [Hc Ht]. cbn [from_sep].
  destruct (N.eqb_spec c sep) as [->|_]; [done|]. by apply IH.
Qed.

Lemma dirname_no_sep (p : pystr) : sep ∉ p → dirname p = [].
Proof.
  intros Hp. unfold dirname. rewrite from_sep_none; [done|].
  by rewrite elem_of_reverse.
Qed.

Lemma dirname_split (d f : pystr) (c : N) :
  sep ∉ f → last d = Some c → c ≠ sep →
  dirname (d ++ [sep] ++ f) = d.
Proof.
  intros Hf Hd Hc. unfold dirname.
  rewrite !reverse_app, <- app_assoc. cbn [reverse app].
  change (reverse [sep]) with [sep]. cbn [app].
  rewrite from_sep_app by (by rewrite elem_of_reverse).
  rewrite reverse_cons, reverse_involutive.
  apply last_Some in Hd as [d' ->].
  assert (forallb (λ c0 : N, (c0 =? sep)%N) ((d' ++ [c]) ++ [sep]) = false) as ->.
  { apply not_true_iff_false. rewrite forallb_forall. intros Hall.
    specialize (Hall c). rewrite N.eqb_eq in Hall. apply Hc, Hall.
    apply list_elem_of_In, elem_of_app. left. apply elem_of_app. right.
    apply list_elem_of_here. }
  rewrite !reverse_app. cbn [reverse app]. change (reverse [sep]) with [sep].
  change (reverse [c]) with [c]. cbn [app lstrip_sep].
  rewrite N.eqb_refl. cbn [lstrip_sep].
  destruct (N.eqb_spec c sep) as [->|_]; [done|].
  rewrite reverse_cons, reverse_involutive. done.
Qed.

(** X13.  With two arguments on accepted tables, the run goes on to write
    in the directory part of the region-counts path: for "dir/file" at
    "dir/summary_structures_counts.csv"; for a bare file name, which has no
    directory part, at "/summary_structures_counts.csv", the root of the
    file system.  The table lands there if that path can be written;
    otherwise the run ends with OSError for that path and no file
    changes. *)
Theorem main_output_location (σ : state) (prog sp rp : pystr)
    (sdf rdf : DataFrame) :
  files σ !! sp = Some sdf →
  files σ !! rp = Some rdf →
  summary_ok sdf →
  region_ok rdf →
  text_table rdf →
  (sep ∉ rp →
   (main [prog; sp; rp] σ).1 =
     (if writable σ (lit "/summary_structures_counts.csv") then Ok ()
      else Raise (OSError (lit "/summary_structures_counts.csv"))) ∧
   files (main [prog; sp; rp] σ).2 =
     (if writable σ (lit "/summary_structures_counts.csv")
      then <[lit "/summary_structures_counts.csv" := counted sdf rdf]> (files σ)
      else files σ)) ∧
  (∀ d f c, rp = d ++ [sep] ++ f → sep ∉ f → last d = Some c → c ≠ sep →
   (main [prog; sp; rp] σ).1 =
     (if writable σ (d ++ lit "/summary_structures_counts.csv") then Ok ()
      else Raise (OSError (d ++ lit "/summary_structures_counts.csv"))) ∧
   files (main [prog; sp; rp] σ).2 =
     (if writable σ (d ++ lit "/summary_structures_counts.csv")
      then <[d ++ lit "/summary_structures_counts.csv" := counted sdf rdf]>
             (files σ)
      else files σ)).
Proof.
  intros Hs Hr Hsum Hreg _.
  assert (∀ out, output_of rp [] = out →
    (main [prog; sp; rp] σ).1 =
      (if writable σ out then Ok () else Raise (OSError out)) ∧
    files (main [prog; sp; rp] σ).2 =
      (if writable σ out then <[out := counted sdf rdf]> (files σ)
       else files σ)) as Hgen.
  { intros out <-. destruct (writable σ (output_of rp [])) eqn:Hw.
    - by rewrite (main_run σ prog sp rp [] sdf rdf Hs Hr Hsum Hreg Hw).
    - by rewrite (main_run_unwritable σ prog sp rp [] sdf rdf Hs Hr Hsum Hreg Hw). }
  split.
  - intros Hrp. apply Hgen. unfold output_of, default_output. cbn [head default].
    by rewrite (dirname_no_sep _ Hrp).
  - intros d f c -> Hf Hd Hc. apply Hgen.
    unfold output_of, default_output. cbn [head default].
    by rewrite (dirname_split d f c Hf Hd Hc).
Qed.

Lemma main_output_location_witness :
  let σ := disk [(lit "summary.csv", scenario_summary);
                (lit "region_counts.csv", scenario_regions)] in
  files σ !! lit "summary.csv" = Some scenario_summary ∧
  files σ !! lit "region_counts.csv" = Some scenario_regions ∧
  summary_ok scenario_summary ∧ region_ok scenario_regions ∧
  text_table scenario_regions ∧
  (sep ∉ lit "region_counts.csv") ∧
  files (main [lit "count_labels.py"; lit "summary.csv";
               lit "region_counts.csv"] σ).2
  = <[lit "/summary_structures_counts.csv"
      := counted scenario_summary scenario_regions]> (files σ).
Proof.
  intros σ. destruct scenario_tables_ok as [Hsum Hreg].
  assert (files σ !! lit "summary.csv" = Some scenario_summary) as Hs
      by (vm_compute; reflexivity).
  assert (files σ !! lit "region_counts.csv" = Some scenario_regions) as Hr
      by (vm_compute; reflexivity).
  assert (sep ∉ lit "region_counts.csv") as Hsep
      by (rewrite list_elem_of_In; vm_compute; intuition discriminate).
  split; [exact Hs|]. split; [exact Hr|]. split; [exact Hsum|].
  split; [exact Hreg|]. split; [exact scenario_regions_text|].
  split; [exact Hsep|].
  destruct (main_output_location σ (lit "count_labels.py") (lit "summary.csv")
              (lit "region_counts.csv") scenario_summary scenario_regions
              Hs Hr Hsum Hreg scenario_regions_text) as [Hroot _].
  exact (proj2 (Hroot Hsep)).
Defined.

(** ** What the run does to the files *)

Lemma keeps_files_bind {A B} (m : M A) (f : A → M B) :
  keeps_files m → (∀ a, keeps_files (f a)) → keeps_files (m ≫= f).
Proof.
  intros Hm Hf σ. unfold mbind, M_bind. specialize (Hm σ).
  destruct (m σ) as [[a|e] σ']; cbn [snd] in *; [|done].
  by rewrite (Hf a σ').
Qed.

Lemma keeps_files_liftR {A} (r : result A) : keeps_files (liftR r).
Proof. by intros σ. Qed.

Lemma keeps_files_print s : keeps_files (print s).
Proof. by intros σ. Qed.

Lemma keeps_files_read_csv p : keeps_files (read_csv p).
Proof. intros σ. unfold read_csv. by destruct (files σ !! p). Qed.

Lemma keeps_files_load_summary_structures p :
  keeps_files (load_summary_structures p).
Proof.
  unfold load_summary_structures.
  apply keeps_files_bind.
  { intros σ. unfold get_summary_structures_filepath.
    by destruct (summary_structures_filepath σ). }
  intros path. apply keeps_files_bind; [apply keeps_files_read_csv|].
  intros df. apply keeps_files_bind; [apply keeps_files_liftR|].
  intros names. apply keeps_files_bind; [apply keeps_files_liftR|].
  by intros lowered σ.
Qed.

Lemma keeps_files_load_region_counts p : keeps_files (load_region_counts p).
Proof.
  unfold load_region_counts.
  apply keeps_files_bind; [apply keeps_files_read_csv|].
  intros df. apply keeps_files_liftR.
Qed.

Lemma writes_last_bind {A B} (m : M A) (f : A → M B) :
  keeps_files m → (∀ a, writes_last (f a)) → writes_last (m ≫= f).
Proof.
  intros Hm Hf σ. unfold mbind, M_bind. specialize (Hm σ).
  destruct (m σ) as [[a|e] σ']; cbn [fst snd] in *; [|done].
  specialize (Hf a σ'). by rewrite Hm in Hf.
Qed.

(** X14.  The script writes at most one file, and only as its last step:
    whatever the arguments and the files, a run that ends normally has
    changed the file at one path and nothing else, and a run that ends in an
    exception (the usage exit included) has changed no file. *)
Theorem main_writes_last (argv : list pystr) (σ : state) :
  match (main argv σ).1 with
  | Ok _ => ∃ path df, files (main argv σ).2 = <[path := df]> (files σ)
  | Raise _ => files (main argv σ).2 = files σ
  end.
Proof.
  revert σ. change (writes_last (main argv)). unfold main.
  case_bool_decide.
  - apply writes_last_bind; [apply keeps_files_print|]. intros _.
    apply writes_last_bind; [apply keeps_files_print|]. intros _.
    by intros σ.
  - apply writes_last_bind; [apply keeps_files_liftR|]. intros path.
    apply writes_last_bind; [by intros σ|]. intros _.
    apply writes_last_bind; [apply keeps_files_liftR|]. intros rp.
    apply writes_last_bind.
    { case_bool_decide; [apply keeps_files_liftR | by intros σ]. }
    intros out.
    apply writes_last_bind; [apply keeps_files_print|]. intros _.
    apply writes_last_bind; [apply keeps_files_print|]. intros _.
    apply writes_last_bind; [apply keeps_files_print|]. intros _.
    apply writes_last_bind; [apply keeps_files_load_summary_structures|].
    intros [summary structures].
    apply writes_last_bind; [apply keeps_files_load_region_counts|].
    intros [regions levels].
    apply writes_last_bind; [apply keeps_files_liftR|]. intros sc.
    apply writes_last_bind; [apply keeps_files_liftR|]. intros summary'.
    intros σ. unfold to_csv. destruct (writable σ out); [|done].
    cbn. by eexists _, _.
Qed.

(** X15.  A path that names no file ends the run with FileNotFoundError
    for that path -- the summary path first, the region-counts path when the
    summary table has loaded -- after the three paths have been printed. *)
Theorem main_file_not_found (σ : state) (prog sp rp : pystr)
    (rest : list pystr) (sdf : DataFrame) :
  (files σ !! sp = None →
   main (prog :: sp :: rp :: rest) σ =
   (Raise (FileNotFoundError sp),
    {| stdout := stdout σ ++ info_lines sp rp (output_of rp rest);
       files := files σ; summary_structures_filepath := Some sp;
       writable := writable σ |})) ∧
  (files σ !! sp = Some sdf → summary_ok sdf → files σ !! rp = None →
   main (prog :: sp :: rp :: rest) σ =
   (Raise (FileNotFoundError rp),
    {| stdout := stdout σ ++ info_lines sp rp (output_of rp rest);
       files := files σ; summary_structures_filepath := Some sp;
       writable := writable σ |})).
Proof.
  assert (∀ σ1, (if bool_decide (4 ≤ length (prog :: sp :: rp :: rest))%nat
                 then liftR (index (prog :: sp :: rp :: rest) 3)
                 else mret (dirname rp ++ lit "/summary_structures_counts.csv"))
                  σ1 = (Ok (output_of rp rest), σ1)) as Hout.
  { intros σ1. destruct rest as [|out rest]; [reflexivity|].
    rewrite bool_decide_eq_true_2 by (cbn; lia). reflexivity. }
  split.
  - intros Hs. unfold main. rewrite bool_decide_eq_false_2 by (cbn; lia).
    do 3 (erewrite M_bind_Ok by reflexivity).
    erewrite (M_bind_Ok _ _ _ (output_of rp rest)) by apply Hout.
    do 3 (erewrite M_bind_Ok by reflexivity).
    erewrite M_bind_Raise.
    2:{ unfold load_summary_structures.
        erewrite M_bind_Ok by reflexivity.
        erewrite M_bind_Raise; [reflexivity|].
        unfold read_csv. cbn [files]. by rewrite Hs. }
    unfold info_lines. cbn [stdout]. by rewrite <- !app_assoc.
  - intros Hs Hsum Hr. unfold main.
    rewrite bool_decide_eq_false_2 by (cbn; lia).
    do 3 (erewrite M_bind_Ok by reflexivity).
    erewrite (M_bind_Ok _ _ _ (output_of rp rest)) by apply Hout.
    do 3 (erewrite M_bind_Ok by reflexivity).
    erewrite M_bind_Ok
      by (by apply (load_summary_structures_strs _ sp sp sdf)).
    cbv beta iota.
    erewrite (M_bind_Raise (load_region_counts rp)).
    2:{ rewrite load_region_counts_unfold. cbn [files]. by rewrite Hr. }
    unfold info_lines. cbn [stdout]. by rewrite <- !app_assoc.
Qed.

Lemma main_file_not_found_witness :
  files scenario !! lit "nowhere.csv" = None ∧
  files scenario !! lit "in/summary.csv" = Some scenario_summary ∧
  summary_ok scenario_summary ∧
  (main [lit "count_labels.py"; lit "in/summary.csv"; lit "nowhere.csv"]
        scenario).1 = Raise (FileNotFoundError (lit "nowhere.csv")).
Proof.
  assert (files scenario !! lit "nowhere.csv" = None) as Hr
      by (vm_compute; reflexivity).
  assert (files scenario !! lit "in/summary.csv" = Some scenario_summary) as Hs
      by (vm_compute; reflexivity).
  destruct scenario_tables_ok as [Hsum _].
  split; [exact Hr|]. split; [exact Hs|]. split; [exact Hsum|].
  destruct (main_file_not_found scenario (lit "count_labels.py")
              (lit "in/summary.csv") (lit "nowhere.csv") [] scenario_summary)
    as [_ Hregion].
  by rewrite (Hregion Hs Hsum Hr).
Defined.

(** ** Edge cases of the run *)

Lemma check_columns_no_level_0 (label : pystr) (row : series) :
  assoc (lit "level_0") row = None →
  check_columns label row = Raise (KeyError (lit "level_0")).
Proof. intros H. unfold check_columns, getitem. by rewrite H. Qed.

Lemma foldM_raise_first {A B} (f : A → B → result A) a b l e :
  f a b = Raise e → foldM f a (b :: l) = Raise e.
Proof. intros H. cbn [foldM]. by rewrite H. Qed.

Lemma elements_list_to_set_nonempty (l : list pystr) :
  l ≠ [] → ∃ x xs, elements (list_to_set l : gset pystr) = x :: xs.
Proof.
  intros Hl. destruct (elements (list_to_set l : gset pystr)) as [|x xs] eqn:He.
  - destruct l as [|a l]; [done|].
    assert (a ∈ elements (list_to_set (a :: l) : gset pystr)) as Ha
        by (apply elem_of_elements, elem_of_list_to_set, list_elem_of_here).
    rewrite He in Ha. by apply elem_of_nil in Ha.
  - by exists x, xs.
Qed.

(** X16.  The column [level_0] is read by the matcher only.  A
    region-counts table without it passes the loader, and the run then stops
    with KeyError for [level_0] at the first comparison, without writing
    anything -- provided there is a comparison to make, that is a name in the
    summary table and a row in the region-counts table. *)
Theorem main_missing_level_0 (σ : state) (prog sp rp : pystr)
    (rest : list pystr) (sdf rdf : DataFrame) (row : series)
    (others : list series) :
  files σ !! sp = Some sdf →
  files σ !! rp = Some rdf →
  summary_ok sdf →
  rows sdf ≠ [] →
  Forall (λ c, c ∈ columns rdf) loader_columns →
  Forall (λ row, Forall (λ c, ∃ v, assoc c row = Some v ∧ str_or_nan v = true)
                        loader_columns) (rows rdf) →
  rows rdf = row :: others →
  assoc (lit "level_0") row = None →
  (main (prog :: sp :: rp :: rest) σ).1 = Raise (KeyError (lit "level_0")) ∧
  files (main (prog :: sp :: rp :: rest) σ).2 = files σ.
Proof.
  intros Hs Hr Hsum Hne Hcols Hrows Hrow Hno.
  assert (main (prog :: sp :: rp :: rest) σ =
          (Raise (KeyError (lit "level_0")),
           {| stdout := stdout σ ++ info_lines sp rp (output_of rp rest);
              files := files σ; summary_structures_filepath := Some sp;
       writable := writable σ |}))
    as ->; [|done].
  unfold main. rewrite bool_decide_eq_false_2 by (cbn; lia).
  do 3 (erewrite M_bind_Ok by reflexivity).
  erewrite (M_bind_Ok _ _ _ (output_of rp rest)).
  2:{ destruct rest as [|out rest']; [reflexivity|].
      rewrite bool_decide_eq_true_2 by (cbn; lia). reflexivity. }
  do 3 (erewrite M_bind_Ok by reflexivity).
  erewrite M_bind_Ok
    by (by apply (load_summary_structures_strs _ sp sp sdf)).
  cbv beta iota.
  erewrite (M_bind_Ok (load_region_counts rp)).
  2:{ apply (load_region_counts_cells _ rp rdf); [done|done| |].
      - eapply Forall_impl; [exact Hrows|]. intros r Hr'.
        eapply Forall_impl; [exact Hr'|]. intros c (v & -> & _). by eexists.
      - apply Forall_forall. intros v. unfold loader_cells.
        rewrite list_elem_of_bind. intros (c & Hv & Hc).
        apply list_elem_of_fmap in Hv as (r & -> & Hr').
        rewrite Forall_forall in Hrows. specialize (Hrows _ Hr').
        rewrite Forall_forall in Hrows.
        destruct (Hrows _ Hc) as (v & Hv & Hok). unfold cell. by rewrite Hv. }
  cbv beta iota.
  erewrite (M_bind_Raise (liftR _)).
  2:{ unfold liftR. f_equal. unfold aggregate, iterrows, fillna. cbn [rows].
      destruct (elements_list_to_set_nonempty (lower <$> (name_of <$> rows sdf)))
        as (l & ls & ->).
      { destruct (rows sdf); [done|discriminate]. }
      rewrite Hrow, fmap_cons. apply foldM_raise_first, foldM_raise_first.
      unfold add_row. rewrite check_columns_no_level_0; [reflexivity|].
      by rewrite assoc_fill_row, Hno. }
  unfold info_lines. cbn [stdout]. by rewrite <- !app_assoc.
Qed.

Lemma main_missing_level_0_witness :
  let σ := disk [(lit "summary.csv", scenario_summary);
                (lit "region_counts.csv", no_level_0)] in
  (main [lit "count_labels.py"; lit "summary.csv"; lit "region_counts.csv"]
        σ).1 = Raise (KeyError (lit "level_0")).
Proof.
  intros σ. destruct scenario_tables_ok as [Hsum _].
  eapply (main_missing_level_0 σ (lit "count_labels.py") (lit "summary.csv")
            (lit "region_counts.csv") [] scenario_summary no_level_0).
  - vm_compute; reflexivity.
  - vm_compute; reflexivity.
  - exact Hsum.
  - discriminate.
  - apply Forall_forall. intros c Hc. apply elem_of_app. by left.
  - repeat constructor; by eexists.
  - reflexivity.
  - reflexivity.
Defined.

(** X17.  A name that matches no row is written with the count 0: on
    accepted tables, the region-counts table having text in it and the
    destination being writable, the output row of a summary row whose name
    matches none of the filled region rows has the cell [count] equal to
    the int 0 and its other cells as they were. *)
Theorem main_default_zero (σ : state) (prog sp rp : pystr)
    (rest : list pystr) (sdf rdf : DataFrame) (i : nat) (row : series) :
  files σ !! sp = Some sdf →
  files σ !! rp = Some rdf →
  summary_ok sdf →
  region_ok rdf →
  text_table rdf →
  writable σ (output_of rp rest) = true →
  rows sdf !! i = Some row →
  (∀ r, r ∈ iterrows (fillna rdf) → check_columns (name_of row) r = Ok false) →
  (main (prog :: sp :: rp :: rest) σ).1 = Ok () ∧
  ∃ out row',
    files (main (prog :: sp :: rp :: rest) σ).2 !! output_of rp rest = Some out ∧
    rows out !! i = Some row' ∧
    assoc (lit "count") row' = Some (PInt 0) ∧
    ∀ k, k ≠ lit "count" → assoc k row' = assoc k row.
Proof.
  intros Hs Hr Hsum Hreg _ Hw Hrow Hnone.
  rewrite (main_run σ prog sp rp rest sdf rdf Hs Hr Hsum Hreg Hw).
  split; [done|].
  cbn [snd files]. rewrite lookup_insert_eq.
  eexists _, _. split; [reflexivity|]. unfold counted. cbn [rows].
  rewrite list_lookup_fmap, Hrow. split; [reflexivity|].
  split.
  - rewrite assoc_setitem, decide_True by done. do 2 f_equal.
    apply total_no_match. apply not_true_iff_false. intros Hex.
    apply existsb_exists in Hex as (r & Hin%list_elem_of_In & Hm).
    specialize (Hnone r Hin).
    assert (has_columns hierarchy r = true) as Hcols.
    { unfold fillna in Hin. cbn [rows] in Hin.
      apply list_elem_of_fmap in Hin as (r0 & -> & Hr0).
      rewrite has_columns_fill_row. destruct Hreg as [_ Hrows].
      rewrite Forall_forall in Hrows. destruct (Hrows _ Hr0) as [Hraw _].
      by apply andb_prop in Hraw as [? _]. }
    rewrite (check_columns_ok _ _ Hcols), Hm in Hnone. discriminate.
  - intros k Hk. by rewrite assoc_setitem, decide_False.
Qed.

Lemma main_default_zero_witness :
  let sdf := summary_table [PStr (lit "Thalamus"); PStr (lit "Pons")] in
  let σ := disk [(lit "in/summary.csv", sdf);
                (lit "in/region_counts.csv", scenario_regions)] in
  summary_ok sdf ∧ region_ok scenario_regions ∧ text_table scenario_regions ∧
  writable σ (output_of (lit "in/region_counts.csv") []) = true ∧
  ∃ out row',
    files (main scenario_argv σ).2 !! lit "in/summary_structures_counts.csv"
      = Some out ∧
    rows out !! 1%nat = Some row' ∧
    assoc (lit "count") row' = Some (PInt 0).
Proof.
  intros sdf σ. destruct scenario_tables_ok as [_ Hreg].
  assert (summary_ok sdf) as Hsum.
  { split; [apply list_elem_of_here|]. repeat constructor; by eexists. }
  split; [exact Hsum|]. split; [exact Hreg|].
  split; [exact scenario_regions_text|]. split; [reflexivity|].
  destruct (main_default_zero σ (lit "count_labels.py") (lit "in/summary.csv")
              (lit "in/region_counts.csv") [] sdf scenario_regions 1%nat
              [(lit "name", PStr (lit "Pons"))])
    as (_ & out & row' & Hout & Hrow & Hcount & _);
    [vm_compute; reflexivity | vm_compute; reflexivity | exact Hsum
    | exact Hreg | exact scenario_regions_text | reflexivity | reflexivity | |].
  - intros r Hin. unfold iterrows, fillna in Hin. cbn [rows] in Hin.
    repeat (apply elem_of_cons in Hin as [->|Hin]; [vm_compute; reflexivity|]).
    by apply elem_of_nil in Hin.
  - exists out, row'. split; [exact Hout|]. split; [exact Hrow | exact Hcount].
Defined.

(** X18.  How [load_summary_structures] fails, whatever path it is
    called with: NameError when the module global is unbound;
    FileNotFoundError for the global's path when no file is there; KeyError
    for [name] when the table there has no such column.  In each case the
    state is left as it was. *)
Theorem load_summary_structures_errors (σ : state) (p : pystr) :
  (summary_structures_filepath σ = None →
   load_summary_structures p σ
     = (Raise (NameError (lit "summary_structures_filepath")), σ)) ∧
  (∀ path, summary_structures_filepath σ = Some path →
     files σ !! path = None →
     load_summary_structures p σ = (Raise (FileNotFoundError path), σ)) ∧
  (∀ path df, summary_structures_filepath σ = Some path →
     files σ !! path = Some df →
     lit "name" ∉ columns df →
     load_summary_structures p σ = (Raise (KeyError (lit "name")), σ)).
Proof.
  unfold load_summary_structures, get_summary_structures_filepath, read_csv,
    liftR, getcol.
  unfold mbind, M_bind.
  split; [|split].
  - by intros ->.
  - by intros path -> ->.
  - intros path df -> -> Hname. by rewrite decide_False.
Qed.

(** ** Running the script again *)

Lemma counted_summary_ok sdf rdf :
  summary_ok sdf → summary_ok (counted sdf rdf).
Proof.
  intros [Hname Hrows]. split; cbn [counted columns rows].
  - destruct (decide (lit "count" ∈ columns sdf)); [done|].
    apply elem_of_app. by left.
  - apply Forall_fmap. eapply Forall_impl; [exact Hrows|].
    intros row (s & Hs). exists s. cbn. by rewrite assoc_setitem, decide_False.
Qed.

Lemma counted_counted sdf rdf : counted (counted sdf rdf) rdf = counted sdf rdf.
Proof.
  unfold counted. cbn [columns rows]. f_equal.
  - destruct (decide (lit "count" ∈ columns sdf)) as [Hin|Hnin].
    + by rewrite decide_True.
    + rewrite decide_True; [done|]. apply elem_of_app. right.
      apply list_elem_of_here.
  - rewrite <- list_fmap_compose. apply list_fmap_ext. intros _ row _. cbn.
    by rewrite name_of_setitem_count, setitem_setitem.
Qed.

(** X19.  Running the script again gives the same table.  After a run
    on accepted tables, take any later state in which the region-counts
    path still reads as the same table and the summary path reads either as
    the same table or as the table the first run wrote (the result having
    been written over the summary file): a second run with the same
    arguments, the destination being writable, ends normally and writes at
    the destination the table the first run wrote there. *)
Theorem main_twice (σ σ' : state) (prog sp rp : pystr) (rest : list pystr)
    (sdf rdf : DataFrame) :
  files σ !! sp = Some sdf →
  files σ !! rp = Some rdf →
  summary_ok sdf →
  region_ok rdf →
  text_table rdf →
  writable σ (output_of rp rest) = true →
  files σ' !! sp = Some sdf ∨ files σ' !! sp = Some (counted sdf rdf) →
  files σ' !! rp = Some rdf →
  writable σ' (output_of rp rest) = true →
  ∃ table,
    (main (prog :: sp :: rp :: rest) σ).1 = Ok () ∧
    files (main (prog :: sp :: rp :: rest) σ).2 !! output_of rp rest
      = Some table ∧
    (main (prog :: sp :: rp :: rest) σ').1 = Ok () ∧
    files (main (prog :: sp :: rp :: rest) σ').2
      = <[output_of rp rest := table]> (files σ').
Proof.
  intros Hs Hr Hsum Hreg _ Hw Hs' Hr' Hw'.
  exists (counted sdf rdf).
  rewrite (main_run σ prog sp rp rest sdf rdf Hs Hr Hsum Hreg Hw).
  cbn [fst snd files]. split; [done|]. split; [apply lookup_insert_eq|].
  destruct Hs' as [Hs'|Hs'].
  - by rewrite (main_run σ' prog sp rp rest sdf rdf Hs' Hr' Hsum Hreg Hw').
  - rewrite (main_run σ' prog sp rp rest (counted sdf rdf) rdf Hs' Hr'
               (counted_summary_ok sdf rdf Hsum) Hreg Hw').
    cbn [fst snd files]. by rewrite counted_counted.
Qed.

Lemma main_twice_witness :
  let argv := scenario_argv ++ [lit "in/summary.csv"] in
  let σ' := (main argv scenario).2 in
  files scenario !! lit "in/summary.csv" = Some scenario_summary ∧
  files scenario !! lit "in/region_counts.csv" = Some scenario_regions ∧
  summary_ok scenario_summary ∧ region_ok scenario_regions ∧
  text_table scenario_regions ∧
  files σ' !! lit "in/summary.csv"
    = Some (counted scenario_summary scenario_regions) ∧
  files σ' !! lit "in/region_counts.csv" = Some scenario_regions ∧
  (main argv σ').1 = Ok () ∧
  files (main argv σ').2 !! lit "in/summary.csv"
    = Some (counted scenario_summary scenario_regions).
Proof.
  intros argv σ'.
  destruct scenario_tables_ok as [Hsum Hreg].
  assert (files scenario !! lit "in/summary.csv" = Some scenario_summary) as Hs
      by (vm_compute; reflexivity).
  assert (files scenario !! lit "in/region_counts.csv" = Some scenario_regions)
    as Hr by (vm_compute; reflexivity).
  assert (files σ' !! lit "in/summary.csv"
          = Some (counted scenario_summary scenario_regions)) as Hs'
      by (vm_compute; reflexivity).
  assert (files σ' !! lit "in/region_counts.csv" = Some scenario_regions)
    as Hr' by (vm_compute; reflexivity).
  split; [exact Hs|]. split; [exact Hr|]. split; [exact Hsum|].
  split; [exact Hreg|]. split; [exact scenario_regions_text|].
  split; [exact Hs'|]. split; [exact Hr'|].
  destruct (main_twice scenario σ' (lit "count_labels.py")
              (lit "in/summary.csv") (lit "in/region_counts.csv")
              [lit "in/summary.csv"] scenario_summary scenario_regions
              Hs Hr Hsum Hreg scenario_regions_text eq_refl
              (or_intror Hs') Hr' eq_refl)
    as (table & _ & Htable & Hok & Hfiles).
  split; [exact Hok|].
  assert (Some table = Some (counted scenario_summary scenario_regions))
    as [= ->] by (rewrite <- Htable; exact Hs').
  etransitivity;
    [exact (f_equal (λ m : gmap pystr DataFrame, m !! lit "in/summary.csv")
              Hfiles)|].
  apply (lookup_insert_eq (files σ') (lit "in/summary.csv")).
Defined.

Lemma load_summary_structures_errors_witness :
  let σ := {| stdout := [];
              files := {[lit "regions.csv" := scenario_regions]};
              summary_structures_filepath := Some (lit "regions.csv");
              writable := λ _, true |} in
  summary_structures_filepath σ = Some (lit "regions.csv") ∧
  files σ !! lit "regions.csv" = Some scenario_regions ∧
  (lit "name" ∉ columns scenario_regions) ∧
  load_summary_structures (lit "summary.csv") σ
    = (Raise (KeyError (lit "name")), σ).
Proof.
  intros σ.
  assert (files σ !! lit "regions.csv" = Some scenario_regions) as Hfile
      by apply lookup_singleton_eq.
  assert (lit "name" ∉ columns scenario_regions) as Hname
      by (rewrite list_elem_of_In; vm_compute; intuition discriminate).
  split; [reflexivity|]. split; [exact Hfile|]. split; [exact Hname|].
  destruct (load_summary_structures_errors σ (lit "summary.csv"))
    as (_ & _ & Hkey).
  exact (Hkey (lit "regions.csv") scenario_regions eq_refl Hfile Hname).
Defined.
